(** * LAN Watch: a shallow embedding of the discovery-and-enrichment pipeline

    The development follows [lan_watch_scanner.py] (the terminal program)
    and [lan_watch_dashboard.py] (the Streamlit dashboard).  Text is a
    [string] whose characters are read as code points below 256; the
    outside world (the privilege probe, [ipconfig], the frame transport,
    the resolver, the radio) is a record of outcomes that the functions
    consume, and every exception the source can catch is an explicit
    constructor of such an outcome. *)

From Stdlib Require Import ZArith Ascii String List Bool Lia.
From stdpp Require Import base tactics option list numbers strings pretty gmap sorting.

Local Open Scope Z_scope.

(** ** The pattern matcher: Python's [re] on the resolver's pattern *)

Module Re.

(** [\d]: below code point 256 the only decimal digits are [0]-[9]. *)
Definition is_digit (c : ascii) : bool :=
  match Ascii.is_nat c with Some _ => true | None => false end.

(** [\s]: [str] whitespace below code point 256, i.e. tab, line feed,
    vertical tab, form feed, carriage return, the four separators
    0x1c-0x1f, space, NEL (0x85) and the no-break space (0xa0). *)
Definition is_space (c : ascii) : bool :=
  match c with
  | "009" | "010" | "011" | "012" | "013"
  | "028" | "029" | "030" | "031" | " " | "133" | "160" => true
  | _ => false
  end%char.

(** The class [[.\s]]. *)
Definition is_dot_or_space (c : ascii) : bool :=
  match c with "."%char => true | _ => is_space c end.

(** The longest prefix of [s] whose characters satisfy [f], and the rest:
    what a greedy [f*] consumes. *)
Fixpoint span (f : ascii -> bool) (s : string) : string * string :=
  match s with
  | String c s' =>
      if f c then let '(a, b) := span f s' in (String c a, b) else (""%string, s)
  | EmptyString => (""%string, ""%string)
  end.

(** [f+]: a greedy run that must not be empty. *)
Definition plus (f : ascii -> bool) (s : string) : option (string * string) :=
  match span f s with
  | (EmptyString, _) => None
  | (a, b) => Some (a, b)
  end.

(** A literal: the rest of [s] after the prefix [p]. *)
Fixpoint lit (p s : string) : option string :=
  match p, s with
  | EmptyString, _ => Some s
  | String a p', String b s' => if Ascii.eqb a b then lit p' s' else None
  | String _ _, EmptyString => None
  end.

(** A literal character. *)
Definition chr (a : ascii) (s : string) : option string :=
  match s with
  | String b s' => if Ascii.eqb a b then Some s' else None
  | EmptyString => None
  end.

(** The group [\d+\.\d+\.\d+\.\d+]: the captured text and the rest. *)
Definition dotted_quad (s : string) : option (string * string) :=
  '(d1, s) ← plus is_digit s;
  s ← chr "." s;
  '(d2, s) ← plus is_digit s;
  s ← chr "." s;
  '(d3, s) ← plus is_digit s;
  s ← chr "." s;
  '(d4, s) ← plus is_digit s;
  Some (d1 +:+ "." +:+ d2 +:+ "." +:+ d3 +:+ "." +:+ d4, s).

(** One attempt to match, at the start of [s], the pattern

      [IPv4 Address[.\s]+:\s*(?P<ip>\d+\.\d+\.\d+\.\d+)\s+]
      [Subnet Mask[.\s]+:\s*(?P<mask>\d+\.\d+\.\d+\.\d+)]

    Every quantifier of the pattern is followed by a character outside
    its own class (or by the end of the pattern), so the greedy choice is
    the only one a backtracking matcher can succeed with.  The result is
    the two groups and the text after the match. *)
Definition match_at (s : string) : option (string * string * string) :=
  s ← lit "IPv4 Address" s;
  '(_, s) ← plus is_dot_or_space s;
  s ← chr ":" s;
  let '(_, s) := span is_space s in
  '(ip, s) ← dotted_quad s;
  '(_, s) ← plus is_space s;
  s ← lit "Subnet Mask" s;
  '(_, s) ← plus is_dot_or_space s;
  s ← chr ":" s;
  let '(_, s) := span is_space s in
  '(mask, s) ← dotted_quad s;
  Some (ip, mask, s).

(** [re.finditer]: the matches from left to right, not overlapping.
    [skip] counts the characters that still belong to the previous
    match; a match is never empty, so the search resumes right after it. *)
Fixpoint finditer_from (skip : nat) (s : string) : list (string * string) :=
  match s with
  | EmptyString => []
  | String _ s' =>
      match skip with
      | S k => finditer_from k s'
      | O =>
          match match_at s with
          | Some (ip, mask, rest) =>
              (ip, mask)
                :: finditer_from (String.length s - String.length rest - 1) s'
          | None => finditer_from 0 s'
          end
      end
  end.

Definition finditer (s : string) : list (string * string) := finditer_from 0 s.

End Re.

(** ** The part of Python's [ipaddress] the resolver goes through *)

Module Ipaddress.

Definition ALL_ONES : Z := 2 ^ 32 - 1.
Definition max_prefixlen : Z := 32.

(** [str.split(sep)] for a one-character separator. *)
Fixpoint split (sep : ascii) (s : string) : list string :=
  match s with
  | EmptyString => [""%string]
  | String c s' =>
      if Ascii.eqb c sep then ""%string :: split sep s'
      else match split sep s' with
           | h :: t => String c h :: t
           | [] => [String c ""]
           end
  end.

Fixpoint all_digits (s : string) : bool :=
  match s with
  | EmptyString => true
  | String c s' => Re.is_digit c && all_digits s'
  end.

Definition digit_val (c : ascii) : Z :=
  match Ascii.is_nat c with Some d => Z.of_nat d | None => 0 end.

(** [int(s, 10)] on a string of ASCII digits. *)
Fixpoint int_of_digits (acc : Z) (s : string) : Z :=
  match s with
  | EmptyString => acc
  | String c s' => int_of_digits (10 * acc + digit_val c) s'
  end.

(** [IPv4Address._parse_octet], as CPython reads an octet since 3.9.5
    (no leading zero): [None] stands for the [ValueError]s. *)
Definition parse_octet (o : string) : option Z :=
  match o with
  | EmptyString => None
  | String c rest =>
      if negb (all_digits o) then None
      else if (3 <? String.length o)%nat then None
      else if negb (String.eqb o "0") && Ascii.eqb c "0" then None
      else
        let v := int_of_digits 0 o in
        if 255 <? v then None else Some v
  end.

(** [IPv4Address._ip_int_from_string]: [None] is [AddressValueError]. *)
Definition ip_int_from_string (s : string) : option Z :=
  match split "." s with
  | [o1; o2; o3; o4] =>
      b1 ← parse_octet o1;
      b2 ← parse_octet o2;
      b3 ← parse_octet o3;
      b4 ← parse_octet o4;
      Some (((b1 * 256 + b2) * 256 + b3) * 256 + b4)
  | _ => None
  end.

(** [int.bit_length]. *)
Definition bit_length (x : Z) : Z :=
  if x =? 0 then 0 else Z.log2 (Z.abs x) + 1.

Definition count_righthand_zero_bits (number bits : Z) : Z :=
  if number =? 0 then bits
  else Z.min bits (bit_length (Z.land (Z.lnot number) (number - 1))).

(** [_prefix_from_ip_int]: [None] is its [ValueError]. *)
Definition prefix_from_ip_int (ip_int : Z) : option Z :=
  let trailing_zeroes := count_righthand_zero_bits ip_int max_prefixlen in
  let prefixlen := max_prefixlen - trailing_zeroes in
  let leading_ones := Z.shiftr ip_int trailing_zeroes in
  let all_ones := Z.shiftl 1 prefixlen - 1 in
  if leading_ones =? all_ones then Some prefixlen else None.

(** [_prefix_from_prefix_string]: a mask written as a prefix length. *)
Definition prefix_from_prefix_string (s : string) : option Z :=
  match s with
  | EmptyString => None
  | _ =>
      if all_digits s then
        let p := int_of_digits 0 s in
        if p <=? max_prefixlen then Some p else None
      else None
  end.

(** [_prefix_from_ip_string]: a dotted mask, read as a netmask and, when
    that fails, as a hostmask. *)
Definition prefix_from_ip_string (s : string) : option Z :=
  ip_int ← ip_int_from_string s;
  match prefix_from_ip_int ip_int with
  | Some p => Some p
  | None => prefix_from_ip_int (Z.lxor ip_int ALL_ONES)
  end.

(** [_make_netmask] on a string: the prefix length. *)
Definition make_netmask (s : string) : option Z :=
  match prefix_from_prefix_string s with
  | Some p => Some p
  | None => prefix_from_ip_string s
  end.

Definition ip_int_from_prefix (prefixlen : Z) : Z :=
  Z.lxor ALL_ONES (Z.shiftr ALL_ONES prefixlen).

(** [str(IPv4Address(n))]. *)
Definition str_of_ip (n : Z) : string :=
  pretty (Z.to_N (Z.shiftr n 24 mod 256)) +:+ "." +:+
  pretty (Z.to_N (Z.shiftr n 16 mod 256)) +:+ "." +:+
  pretty (Z.to_N (Z.shiftr n 8 mod 256)) +:+ "." +:+
  pretty (Z.to_N (n mod 256)).

(** [str(IPv4Network)]: base address, a slash, the prefix length. *)
Definition cidr (base prefixlen : Z) : string :=
  str_of_ip base +:+ "/" +:+ pretty (Z.to_N prefixlen).

(** [str(ipaddress.ip_interface(f"{ip}/{mask}").network)].  The two
    groups hold digits and dots only, so splitting the formatted text at
    its slash gives them back; the network is built with [strict=False],
    i.e. the host bits of the address are masked off. *)
Definition interface_network (ip_str mask_str : string) : option string :=
  addr ← ip_int_from_string ip_str;
  prefixlen ← make_netmask mask_str;
  let netmask := ip_int_from_prefix prefixlen in
  Some (cidr (Z.land addr netmask) prefixlen).

(** *** The IPv6 reading of an address *)

(** [str.partition(sep)] for a one-character separator: the text before
    the first [sep], whether there is one, and the text after it. *)
Fixpoint partition (sep : ascii) (s : string) : string * bool * string :=
  match s with
  | EmptyString => (""%string, false, ""%string)
  | String c s' =>
      if Ascii.eqb c sep then (""%string, true, s')
      else let '(a, found, b) := partition sep s' in (String c a, found, b)
  end.

(** [c in s]. *)
Fixpoint has_char (c : ascii) (s : string) : bool :=
  match s with
  | EmptyString => false
  | String c' s' => Ascii.eqb c' c || has_char c s'
  end.

(** The value of a character of [_HEX_DIGITS], if it is one. *)
Definition hex_val (c : ascii) : option Z :=
  match Ascii.is_nat c with
  | Some d => Some (Z.of_nat d)
  | None =>
      match c with
      | "a" | "A" => Some 10 | "b" | "B" => Some 11 | "c" | "C" => Some 12
      | "d" | "D" => Some 13 | "e" | "E" => Some 14 | "f" | "F" => Some 15
      | _ => None
      end%char
  end.

(** [int(s, 16)] on hexadecimal digits; [None] when a character is not
    one. *)
Fixpoint int_of_hex (acc : Z) (s : string) : option Z :=
  match s with
  | EmptyString => Some acc
  | String c s' => d ← hex_val c; int_of_hex (16 * acc + d) s'
  end.

(** [IPv6Address._parse_hextet]: hexadecimal digits only, at most four
    of them, and [int('', 16)] raises. *)
Definition parse_hextet (hextet_str : string) : option Z :=
  v ← int_of_hex 0 hextet_str;
  if (4 <? String.length hextet_str)%nat then None
  else match hextet_str with
       | EmptyString => None
       | _ => Some v
       end.

Definition hex_digit (d : Z) : ascii :=
  match d with
  | 0 => "0" | 1 => "1" | 2 => "2" | 3 => "3" | 4 => "4" | 5 => "5"
  | 6 => "6" | 7 => "7" | 8 => "8" | 9 => "9" | 10 => "a" | 11 => "b"
  | 12 => "c" | 13 => "d" | 14 => "e" | _ => "f"
  end%char.

Fixpoint strip_zeros (digits : list Z) : list Z :=
  match digits with
  | d :: (_ :: _) as rest => if d =? 0 then strip_zeros rest else digits
  | _ => digits
  end.

(** ['%x' % n] for [0 <= n < 65536]. *)
Definition to_hex (n : Z) : string :=
  string_of_list_ascii
    (hex_digit <$> strip_zeros [n / 4096 mod 16; n / 256 mod 16; n / 16 mod 16; n mod 16]).

(** The loop that looks for ["::"] between the end points: the indices
    [1 .. len(parts) - 2] of the empty parts. *)
Definition empty_middle_parts (parts : list string) : list nat :=
  filter (fun i => parts !! i = Some ""%string) (seq 1 (length parts - 2)).

(** The two loops that put the hextets together. *)
Definition hextets_int (ip_int : Z) (hextets : list string) : option Z :=
  foldl (fun ip_int hextet =>
           ip_int ← ip_int; v ← parse_hextet hextet;
           Some (Z.lor (Z.shiftl ip_int 16) v))
    (Some ip_int) hextets.

(** [IPv6Address._ip_int_from_string]: [None] is [AddressValueError]. *)
Definition ip6_int_from_string (ip_str : string) : option Z :=
  if String.eqb ip_str "" then None else
  let parts := split ":" ip_str in
  if (length parts <? 3)%nat then None else
  parts ←
    (if has_char "." (List.last parts ""%string) then
       ipv4_int ← ip_int_from_string (List.last parts ""%string);
       Some (removelast parts
               ++ [to_hex (Z.land (Z.shiftr ipv4_int 16) 65535);
                   to_hex (Z.land ipv4_int 65535)])
     else Some parts);
  if (9 <? length parts)%nat then None else
  let first_empty := String.eqb (List.hd ""%string parts) "" in
  let last_empty := String.eqb (List.last parts ""%string) "" in
  '(parts_hi, parts_lo, parts_skipped) ←
    match empty_middle_parts parts with
    | [] =>
        if negb (length parts =? 8)%nat then None
        else if first_empty then None
        else if last_empty then None
        else Some (length parts, 0%nat, 0%nat)
    | [skip_index] =>
        let parts_hi := skip_index in
        let parts_lo := (length parts - skip_index - 1)%nat in
        parts_hi ←
          (if first_empty
           then (if (parts_hi - 1 =? 0)%nat then Some (parts_hi - 1)%nat else None)
           else Some parts_hi);
        parts_lo ←
          (if last_empty
           then (if (parts_lo - 1 =? 0)%nat then Some (parts_lo - 1)%nat else None)
           else Some parts_lo);
        if (8 <? parts_hi + parts_lo + 1)%nat then None
        else Some (parts_hi, parts_lo, (8 - (parts_hi + parts_lo))%nat)
    | _ => None
    end;
  ip_int ← hextets_int 0 (take parts_hi parts);
  hextets_int (Z.shiftl ip_int (16 * Z.of_nat parts_skipped))
    (drop (length parts - parts_lo) parts).

(** [IPv6Address._split_scope_id]: the address without its scope. *)
Definition split_scope_id (ip_str : string) : option string :=
  let '(addr, sep, scope_id) := partition "%" ip_str in
  if negb sep then Some addr
  else if String.eqb scope_id "" || has_char "%" scope_id then None
  else Some addr.

(** The integer of [IPv4Address(s)] and of [IPv6Address(s)]. *)
Definition ipv4_address (s : string) : option Z :=
  if has_char "/" s then None else ip_int_from_string s.

Definition ipv6_address (s : string) : option Z :=
  if has_char "/" s then None
  else addr_str ← split_scope_id s; ip6_int_from_string addr_str.

End Ipaddress.

(** ** The range resolver ([get_local_network_range_windows]) *)

(** What [subprocess.run(["ipconfig"], ..., check=True)] can do: raise
    (no such program, non-zero exit status) or hand back its output. *)
Inductive ipconfig_outcome :=
  | IpconfigRaised
  | IpconfigOutput (stdout : string).

Definition truthy (s : string) : bool := negb (String.eqb s "").

(** [s.startswith(p)]. *)
Fixpoint startswith (p s : string) : bool :=
  match p, s with
  | EmptyString, _ => true
  | String a p', String b s' => Ascii.eqb a b && startswith p' s'
  | String _ _, EmptyString => false
  end.

(** The [for match in matches] loop.  [None] is the function's [None]:
    either the loop ran out and the [RuntimeError] was caught, or
    [ip_interface] raised inside the loop and that was caught, which ends
    the scan without looking at later matches. *)
Fixpoint first_network (matches : list (string * string)) : option string :=
  match matches with
  | [] => None
  | (ip_str, mask_str) :: rest =>
      if truthy ip_str && truthy mask_str && negb (startswith "169.254" ip_str)
      then Ipaddress.interface_network ip_str mask_str
      else first_network rest
  end.

Definition get_local_network_range_windows (run : ipconfig_outcome) : option string :=
  match run with
  | IpconfigRaised => None
  | IpconfigOutput output => first_network (Re.finditer output)
  end.

(** The link-local block 169.254.0.0/16, on the address as a number. *)
Definition link_local (a : Z) : bool := Z.shiftr a 16 =? 169 * 256 + 254.

(** A netmask of prefix length [p]: [p] one bits, then zeros. *)
Definition netmask_of (p : Z) : Z := 2 ^ 32 - 2 ^ (32 - p).

(** A pair the resolver can use: an address [ipaddress] accepts, outside
    the link-local block, with a mask [ipaddress] accepts. *)
Definition qualifying (pair : string * string) : bool :=
  match Ipaddress.ip_int_from_string pair.1, Ipaddress.make_netmask pair.2 with
  | Some a, Some _ => negb (link_local a)
  | _, _ => false
  end.

(** A pair whose address is a well-formed link-local one. *)
Definition link_local_pair (pair : string * string) : bool :=
  match Ipaddress.ip_int_from_string pair.1 with
  | Some a => link_local a
  | None => false
  end.

(** ** Data *)

(** The dictionary [{"ip": ..., "mac": ...}] of one responding host;
    the key ["name"] is absent until the enrichment step sets it. *)
Record client := Client {
  c_ip : string;
  c_mac : string;
  c_name : option string;
}.

(** The dictionary [{"name": ..., "mac": ...}] of one named peripheral. *)
Record device := Device {
  d_name : string;
  d_mac : string;
}.

(** What the code sets and reads of an ARP packet: the source address
    and hardware address of a received one, the target address of a
    request ([scp.ARP(pdst=ip_range)] stands for one request per address
    of the range). *)
Record arp_packet := ArpPacket {
  psrc : string;
  hwsrc : string;
  pdst : string;
}.

(** What the code reads of a [bleak] [BLEDevice]; [name] may be [None]. *)
Record BLEDevice := {
  address : string;
  name : option string;
}.

(** A call that either returns or lets an exception escape. *)
Inductive result (A : Type) :=
  | Returned (a : A)
  | Raised.
Arguments Returned {A} a.
Arguments Raised {A}.

(** ** The link-layer prober ([scan_wifi_network]) *)

(** What [scp.srp(...)] (with building the packets before it) can do:
    raise, or return its answered list of (sent, received) pairs. *)
Inductive srp_outcome :=
  | SrpRaised
  | SrpAnswered (answered_list : list (arp_packet * arp_packet)).

(** The loop [for element in answered_list: clients_list.append(...)]. *)
Definition collect_clients (answered_list : list (arp_packet * arp_packet))
    : list client :=
  fold_left
    (fun clients_list element =>
       clients_list ++ [Client (psrc element.2) (hwsrc element.2) None])
    answered_list [].

Definition scan_wifi_network (srp : srp_outcome) : list client :=
  match srp with
  | SrpAnswered answered_list => collect_clients answered_list
  | SrpRaised => []
  end.

(** How [scp.srp] builds its answered list when it is called as here,
    without [multi=True]: the packets received within the timeout are
    taken in the order of their arrival; one that answers a request
    which is still pending ([ARP.answers]: its source address is the
    request's target address) is paired with the first such request,
    and that request is pending no longer; a packet that answers no
    pending request is left out. *)
Definition answers (received request : arp_packet) : bool :=
  String.eqb (psrc received) (pdst request).

Fixpoint match_pending (received : arp_packet) (pending : list arp_packet)
    : option (arp_packet * list arp_packet) :=
  match pending with
  | [] => None
  | request :: rest =>
      if answers received request then Some (request, rest)
      else '(found, rest') ← match_pending received rest;
           Some (found, request :: rest')
  end.

Fixpoint sndrcv (pending received : list arp_packet)
    : list (arp_packet * arp_packet) :=
  match received with
  | [] => []
  | r :: later =>
      match match_pending r pending with
      | Some (request, pending') => (request, r) :: sndrcv pending' later
      | None => sndrcv pending later
      end
  end.

(** ** The name resolver *)

(** What [socket.gethostbyaddr] can do: return a host name, raise
    [socket.herror] (name not found), run into the socket timeout, or
    raise any other [Exception]. *)
Inductive lookup_outcome :=
  | Hostname (hostname : string)
  | Herror
  | Timeout
  | OtherError.

Definition lookup_failed (o : lookup_outcome) : bool :=
  match o with Hostname _ => false | _ => true end.

(** The resolver of one run: the outcome of the [i]-th lookup of the
    run, made for address [ip]. *)
Definition resolver := nat -> string -> lookup_outcome.

(** ** The short-range scanner ([scan_bluetooth_devices]) *)

(** What [bleak.BleakScanner.discover(timeout=5.0)] can do: raise
    [BleakError] (the adapter cannot be used), raise something else, or
    return the devices it heard. *)
Inductive discover_outcome :=
  | DiscoverBleakError
  | DiscoverOtherError
  | Discovered (discovered_devices : list BLEDevice).

(** [d.name and d.name != "Unknown"]. *)
Definition usable_name (d : BLEDevice) : option string :=
  match name d with
  | Some n => if truthy n && negb (String.eqb n "Unknown") then Some n else None
  | None => None
  end.

(** The loop over [discovered_devices], appending to [devices_list]. *)
Definition collect_devices (discovered_devices : list BLEDevice) : list device :=
  fold_left
    (fun devices_list d =>
       match usable_name d with
       | Some n => devices_list ++ [Device n (address d)]
       | None => devices_list
       end)
    discovered_devices [].

(** The function is the same in both programs (they differ in how the
    error is reported).  Only [BleakError] is caught; [devices_list] is
    still empty when [discover] raises. *)
Definition scan_bluetooth_devices (discover : discover_outcome)
    : result (list device) :=
  match discover with
  | Discovered discovered_devices => Returned (collect_devices discovered_devices)
  | DiscoverBleakError => Returned []
  | DiscoverOtherError => Raised
  end.

(** ** The terminal display *)

(** Python's [sorted] is stable; insertion from the right, placing an
    element before the first one that is not smaller, is the stable sort. *)
Fixpoint insert_by {A} (le : A -> A -> bool) (x : A) (l : list A) : list A :=
  match l with
  | [] => [x]
  | y :: l' => if le x y then x :: l else y :: insert_by le x l'
  end.

Definition sorted {A} (le : A -> A -> bool) (l : list A) : list A :=
  foldr (insert_by le) [] l.

(** What [ipaddress.ip_address] returns: an address of one of the two
    versions, holding its integer. *)
Inductive IPAddress :=
  | IPv4Address (ip : Z)
  | IPv6Address (ip : Z).

(** [ipaddress.ip_address(x['ip'])], the sort key: the IPv4 reading is
    tried first, then the IPv6 one; [None] is the [ValueError]. *)
Definition ip_address (s : string) : option IPAddress :=
  match Ipaddress.ipv4_address s with
  | Some ip => Some (IPv4Address ip)
  | None => IPv6Address <$> Ipaddress.ipv6_address s
  end.

(** [_BaseAddress.__lt__]: addresses of different versions do not
    compare; [None] is the [TypeError] it raises. *)
Definition address_lt (x y : IPAddress) : option bool :=
  match x, y with
  | IPv4Address a, IPv4Address b => Some (a <? b)
  | IPv6Address a, IPv6Address b => Some (a <? b)
  | _, _ => None
  end.

(** The stable sort again, for a comparison [<] that can raise: the
    element goes behind the elements that are smaller than it, and the
    first comparison that raises ends the sort.  Whatever the order in
    which a sort compares, it cannot finish without comparing two keys
    of different versions when there are such, so this sort raises
    exactly when Python's does. *)
Fixpoint insert_lt {A} (lt : A -> A -> option bool) (x : A) (l : list A)
    : option (list A) :=
  match l with
  | [] => Some [x]
  | y :: l' =>
      b ← lt y x;
      if b : bool then l'' ← insert_lt lt x l'; Some (y :: l'')
      else Some (x :: l)
  end.

Definition sorted_lt {A} (lt : A -> A -> option bool) (l : list A)
    : option (list A) :=
  foldr (fun x sorted_tail => sorted_tail ≫= insert_lt lt x) (Some []) l.

(** [sorted(clients_list, key=...)] inside [try ... except ValueError]:
    every key is computed before any is compared, and one [ValueError]
    makes the display fall back to the list as it is; the [TypeError]
    of a comparison is not caught and leaves the function. *)
Definition sort_clients (clients_list : list client) : result (list client) :=
  match mapM (fun x => k ← ip_address (c_ip x); Some (k, x)) clients_list with
  | Some keyed =>
      match sorted_lt (fun a b => address_lt a.1 b.1) keyed with
      | Some sorted_clients => Returned sorted_clients.*2
      | None => Raised
      end
  | None => Returned clients_list
  end.

Definition sort_devices (clients_list : list device) : list device :=
  sorted (fun a b => String.leb (d_name a) (d_name b)) clients_list.

Definition name_width : nat := 28.

(** [s[:n]]. *)
Fixpoint str_take (n : nat) (s : string) : string :=
  match n, s with
  | S n', String c s' => String c (str_take n' s')
  | _, _ => ""%string
  end.

(** One table row, cell by cell, before padding. *)
Record wifi_row := WifiRow {
  w_index : nat;
  w_ip : string;
  w_mac : string;
  w_name : string;
}.

Record bluetooth_row := BluetoothRow {
  b_index : nat;
  b_name : string;
  b_mac : string;
}.

(** The rows [display_wifi_results] prints between the header and the
    bottom border (none for an empty list: the "no devices" line), or
    the exception of the sort, which comes before the first row. *)
Definition display_wifi_results (clients_list : list client)
    : result (list wifi_row) :=
  match sort_clients clients_list with
  | Returned sorted_clients =>
      Returned
        (imap
           (fun i client =>
              WifiRow (i + 1) (c_ip client) (c_mac client)
                (str_take name_width (default "N/A"%string (c_name client))))
           sorted_clients)
  | Raised => Raised
  end.

Definition display_bluetooth_results (clients_list : list device)
    : list bluetooth_row :=
  imap
    (fun i client =>
       BluetoothRow (i + 1)
         (str_take name_width
            (if truthy (d_name client) then d_name client else "N/A"%string))
         (d_mac client))
    (sort_devices clients_list).

(** ** The terminal tables as printed *)

(** The box-drawing characters of the two tables. *)
Module Box.
Inductive t := h | v | tl | tr | bl | br | tc | bc | lc | rc | c.
End Box.

(** One printed character: a code point below 256 or a box-drawing
    character.  [len] counts either as one. *)
Inductive glyph :=
  | Chr (a : ascii)
  | Box (b : Box.t).

Definition text := list glyph.

Definition str (s : string) : text := Chr <$> list_ascii_of_string s.

(** [h * n]. *)
Definition hs (n : nat) : text := replicate n (Box Box.h).

(** The format specifications [:<w] and [:^w]: the text is padded with
    spaces to the width [w] and never shortened; centring puts the
    smaller half of the padding on the left. *)
Definition ljust (w : nat) (s : text) : text :=
  s ++ replicate (w - length s) (Chr " ").

Definition center (w : nat) (s : text) : text :=
  let padding := (w - length s)%nat in
  replicate (padding / 2) (Chr " ") ++ s
    ++ replicate (padding - padding / 2) (Chr " ").

(** What [display_wifi_results] prints, line by line. *)
Module WifiTable.

Definition idx_width : nat := 5.
Definition ip_width : nat := 18.
Definition mac_width : nat := 17.

Definition top_border : text :=
  [Box Box.tl] ++ hs (idx_width + 2) ++ [Box Box.tc] ++ hs (ip_width + 2)
    ++ [Box Box.tc] ++ hs (mac_width + 2) ++ [Box Box.tc]
    ++ hs (name_width + 2) ++ [Box Box.tr].

Definition title (clients_list : list client) : text :=
  str (" LAN Watch: Wi-Fi Network (" +:+ pretty (length clients_list)
       +:+ " Devices) ").

Definition total_inner_width : nat := length top_border - 2.

Definition title_row (clients_list : list client) : text :=
  [Box Box.v] ++ center total_inner_width (title clients_list) ++ [Box Box.v].

Definition header_sep : text :=
  [Box Box.lc] ++ hs (idx_width + 2) ++ [Box Box.c] ++ hs (ip_width + 2)
    ++ [Box Box.c] ++ hs (mac_width + 2) ++ [Box Box.c]
    ++ hs (name_width + 2) ++ [Box Box.rc].

Definition header_idx : text := str " " ++ center idx_width (str "#") ++ str " ".
Definition header_ip : text :=
  str " " ++ center ip_width (str "IP Address") ++ str " ".
Definition header_mac : text :=
  str " " ++ center mac_width (str "MAC Address") ++ str " ".
Definition header_name : text :=
  str " " ++ center name_width (str "Device Name (Hostname)") ++ str " ".

Definition header_row : text :=
  [Box Box.v] ++ header_idx ++ [Box Box.v] ++ header_ip ++ [Box Box.v]
    ++ header_mac ++ [Box Box.v] ++ header_name ++ [Box Box.v].

Definition bottom_border : text :=
  [Box Box.bl] ++ hs (idx_width + 2) ++ [Box Box.bc] ++ hs (ip_width + 2)
    ++ [Box Box.bc] ++ hs (mac_width + 2) ++ [Box Box.bc]
    ++ hs (name_width + 2) ++ [Box Box.br].

Definition no_devices_msg : string := "No devices found on the network.".

(** The line of one row; its name cell is already cut to [name_width]. *)
Definition row (r : wifi_row) : text :=
  let idx_str := str " " ++ ljust idx_width (str (pretty (w_index r))) ++ str " " in
  let ip_str := str " " ++ ljust ip_width (str (w_ip r)) ++ str " " in
  let mac_str := str " " ++ ljust mac_width (str (w_mac r)) ++ str " " in
  let name_str := str " " ++ ljust name_width (str (w_name r)) ++ str " " in
  [Box Box.v] ++ idx_str ++ [Box Box.v] ++ ip_str ++ [Box Box.v] ++ mac_str
    ++ [Box Box.v] ++ name_str ++ [Box Box.v].

(** The lines in the order of the [print] calls, and whether the
    function returned; the first call prints a line feed before the top
    border, which gives an empty line.  When the sort raises, the lines
    down to the second separator have been printed and nothing follows. *)
Definition print (clients_list : list client) : list text * result unit :=
  let head :=
    [[]; top_border; title_row clients_list; header_sep; header_row; header_sep] in
  match clients_list with
  | [] =>
      (head ++ [[Box Box.v] ++ center total_inner_width (str no_devices_msg)
                  ++ [Box Box.v]] ++ [bottom_border],
       Returned ())
  | _ =>
      match display_wifi_results clients_list with
      | Returned rows => (head ++ (row <$> rows) ++ [bottom_border], Returned ())
      | Raised => (head, Raised)
      end
  end.

End WifiTable.

(** What [display_bluetooth_results] prints, line by line. *)
Module BluetoothTable.

Definition idx_width : nat := 5.
Definition mac_width : nat := 17.

Definition top_border : text :=
  [Box Box.tl] ++ hs (idx_width + 2) ++ [Box Box.tc] ++ hs (name_width + 2)
    ++ [Box Box.tc] ++ hs (mac_width + 2) ++ [Box Box.tr].

Definition title (clients_list : list device) : text :=
  str (" LAN Watch: Bluetooth (" +:+ pretty (length clients_list)
       +:+ " Devices) ").

Definition total_inner_width : nat := length top_border - 2.

Definition title_row (clients_list : list device) : text :=
  [Box Box.v] ++ center total_inner_width (title clients_list) ++ [Box Box.v].

Definition header_sep : text :=
  [Box Box.lc] ++ hs (idx_width + 2) ++ [Box Box.c] ++ hs (name_width + 2)
    ++ [Box Box.c] ++ hs (mac_width + 2) ++ [Box Box.rc].

Definition header_idx : text := str " " ++ center idx_width (str "#") ++ str " ".
Definition header_name : text :=
  str " " ++ center name_width (str "Device Name") ++ str " ".
Definition header_mac : text :=
  str " " ++ center mac_width (str "MAC Address") ++ str " ".

Definition header_row : text :=
  [Box Box.v] ++ header_idx ++ [Box Box.v] ++ header_name ++ [Box Box.v]
    ++ header_mac ++ [Box Box.v].

Definition bottom_border : text :=
  [Box Box.bl] ++ hs (idx_width + 2) ++ [Box Box.bc] ++ hs (name_width + 2)
    ++ [Box Box.bc] ++ hs (mac_width + 2) ++ [Box Box.br].

Definition no_devices_msg : string := "No devices found.".

Definition row (r : bluetooth_row) : text :=
  let idx_str := str " " ++ ljust idx_width (str (pretty (b_index r))) ++ str " " in
  let name_str := str " " ++ ljust name_width (str (b_name r)) ++ str " " in
  let mac_str := str " " ++ ljust mac_width (str (b_mac r)) ++ str " " in
  [Box Box.v] ++ idx_str ++ [Box Box.v] ++ name_str ++ [Box Box.v] ++ mac_str
    ++ [Box Box.v].

Definition print (clients_list : list device) : list text :=
  [[]; top_border; title_row clients_list; header_sep; header_row; header_sep]
    ++ match clients_list with
       | [] => [[Box Box.v] ++ center total_inner_width (str no_devices_msg)
                  ++ [Box Box.v]]
       | _ => row <$> display_bluetooth_results clients_list
       end
    ++ [bottom_border].

End BluetoothTable.

(** ** The outside world and the calls made to it *)

Record world := World {
  platform_windows : bool;          (* [platform.system() == "Windows"] *)
  admin_probe : option bool;        (* the privilege query; [None]: it raised *)
  ipconfig : ipconfig_outcome;
  srp : string -> srp_outcome;      (* by the range that is probed *)
  gethostbyaddr : resolver;
  discover : discover_outcome;
  now : Z;                          (* the clock, in seconds *)
}.

(** The calls a run makes to the outside. *)
Inductive event :=
  | EvIsAdmin
  | EvIpconfig
  | EvSrp (ip_range : string)       (* frames are transmitted here *)
  | EvGethostbyaddr (ip : string)
  | EvDiscover.

Global Instance event_eq_dec : EqDecision event.
Proof. solve_decision. Defined.

(** A computation that logs its calls. *)
Record M (A : Type) := Run { trace : list event; value : A }.
Arguments Run {A} trace value.
Arguments trace {A} m.
Arguments value {A} m.

Global Instance M_ret : MRet M := fun A a => Run [] a.
Global Instance M_bind : MBind M := fun A B f m =>
  Run (trace m ++ trace (f (value m))) (value (f (value m))).

(** Make the call [e], whose outcome is [a]. *)
Definition call {A} (e : event) (a : A) : M A := Run [e] a.
Definition calls {A} (es : list event) (a : A) : M A := Run es a.

(** [is_admin]: the query, [False] when it raises. *)
Definition is_admin (w : world) : M bool :=
  call EvIsAdmin (default false (admin_probe w)).

(** ** The terminal program ([lan_watch_scanner.py]) *)

Inductive outcome :=
  | Exit (code : Z)                                  (* [sys.exit(code)] *)
  | Complete (wifi : list wifi_row) (bluetooth : list bluetooth_row)
  | Crashed.                                         (* an escaped exception *)

Module Scanner.

(** [get_device_hostname(ip_address, results_dict)]: the helper writes
    into the dictionary it is given.  No function of the program calls it. *)
Definition get_device_hostname (lookup : lookup_outcome) (ip_address : string)
    (results_dict : gmap string string) : gmap string string :=
  match lookup with
  | Hostname hostname => <[ip_address := hostname]> results_dict
  | Herror => <[ip_address := "N/A"%string]> results_dict
  | Timeout | OtherError => <[ip_address := "Error"%string]> results_dict
  end.

(** The body of [for i, client in enumerate(clients_list)], from index [i]. *)
Fixpoint enrich_from (gethostbyaddr : resolver) (i : nat)
    (clients_list : list client) : list client :=
  match clients_list with
  | [] => []
  | client :: rest =>
      let name :=
        match gethostbyaddr i (c_ip client) with
        | Hostname hostname => hostname
        | Herror => "N/A"%string        (* except socket.herror *)
        | Timeout | OtherError => "N/A"%string   (* except Exception *)
        end in
      Client (c_ip client) (c_mac client) (Some name)
        :: enrich_from gethostbyaddr (S i) rest
  end.

Definition enrich_wifi_devices_with_hostname (gethostbyaddr : resolver)
    (clients_list : list client) : list client :=
  match clients_list with
  | [] => []
  | _ => enrich_from gethostbyaddr 0 clients_list
  end.

(** [main].  A range the resolver returns is never the empty string
    (lemma [resolved_range_not_empty]), so [if not target_range] is the
    test for [None].  An exception of the first display leaves [main]
    before the second table is printed. *)
Definition main (w : world) : M outcome :=
  admin ← is_admin w;
  if negb admin then mret (Exit 1)
  else
    target_range ←
      (if platform_windows w
       then call EvIpconfig (get_local_network_range_windows (ipconfig w))
       else mret None);
    match target_range with
    | None => mret (Exit 1)
    | Some target_range =>
        wifi_devices ← call (EvSrp target_range) (scan_wifi_network (srp w target_range));
        enriched_wifi_devices ←
          calls (EvGethostbyaddr ∘ c_ip <$> wifi_devices)
            (enrich_wifi_devices_with_hostname (gethostbyaddr w) wifi_devices);
        bluetooth_devices ← call EvDiscover (scan_bluetooth_devices (discover w));
        match bluetooth_devices with
        | Raised => mret Crashed
        | Returned bluetooth_devices =>
            match display_wifi_results enriched_wifi_devices with
            | Raised => mret Crashed
            | Returned wifi =>
                mret (Complete wifi (display_bluetooth_results bluetooth_devices))
            end
        end
    end.

End Scanner.

(** ** The dashboard ([lan_watch_dashboard.py]) *)

Module Dashboard.

(** The dashboard's loop has the single handler
    [except (socket.herror, Exception)]. *)
Fixpoint enrich_from (gethostbyaddr : resolver) (i : nat)
    (clients_list : list client) : list client :=
  match clients_list with
  | [] => []
  | client :: rest =>
      let name :=
        match gethostbyaddr i (c_ip client) with
        | Hostname hostname => hostname
        | Herror | Timeout | OtherError => "N/A"%string
        end in
      Client (c_ip client) (c_mac client) (Some name)
        :: enrich_from gethostbyaddr (S i) rest
  end.

Definition enrich_wifi_devices_with_hostname (gethostbyaddr : resolver)
    (clients_list : list client) : list client :=
  match clients_list with
  | [] => []
  | _ => enrich_from gethostbyaddr 0 clients_list
  end.

(** The list objects of the Python heap, by identity.  The dictionaries
    of a list are created in the loop that fills it and are referenced
    from that list only, so they are kept inside their list. *)
Inductive object :=
  | WifiList (l : list client)
  | BtList (l : list device).

(** What outlives one execution of the script: the objects, the session
    state ([st.session_state], whose two result entries are references)
    and the entry of [st.cache_data] for the range resolver, i.e. the
    time it was stored and the value. *)
Record app := App {
  heap : gmap nat object;
  next : nat;
  scan_run : bool;
  wifi_results : nat;
  bt_results : nat;
  range_cache : option (Z * option string);
}.

(** A new object. *)
Definition alloc (o : object) (a : app) : nat * app :=
  (next a,
   App (<[next a := o]> (heap a)) (S (next a)) (scan_run a)
     (wifi_results a) (bt_results a) (range_cache a)).

Definition set_scan_run (b : bool) (a : app) : app :=
  App (heap a) (next a) b (wifi_results a) (bt_results a) (range_cache a).
Definition set_wifi_results (r : nat) (a : app) : app :=
  App (heap a) (next a) (scan_run a) r (bt_results a) (range_cache a).
Definition set_bt_results (r : nat) (a : app) : app :=
  App (heap a) (next a) (scan_run a) (wifi_results a) r (range_cache a).
Definition set_range_cache (c : option (Z * option string)) (a : app) : app :=
  App (heap a) (next a) (scan_run a) (wifi_results a) (bt_results a) c.
(** An in-place write to the object [r]. *)
Definition write (r : nat) (o : object) (a : app) : app :=
  App (<[r := o]> (heap a)) (next a) (scan_run a) (wifi_results a)
    (bt_results a) (range_cache a).

Definition wifi_list (a : app) (r : nat) : list client :=
  match heap a !! r with Some (WifiList l) => l | _ => [] end.
Definition bt_list (a : app) (r : nat) : list device :=
  match heap a !! r with Some (BtList l) => l | _ => [] end.

(** The first execution of the script: the three session entries are
    missing and get their initial values; nothing is cached. *)
Definition init : app :=
  let a := App ∅ 0 false 0 0 None in
  let '(r, a) := alloc (WifiList []) a in
  let a := set_wifi_results r a in
  let '(r, a) := alloc (BtList []) a in
  set_bt_results r a.

(** [@st.cache_data(ttl=600)]. *)
Definition ttl : Z := 600.

(** The decorated [get_local_network_range_windows()]: an entry younger
    than [ttl] seconds is returned without running the function; else
    the function runs and its value ([None] included) is stored. *)
Definition get_local_network_range_windows_cached (w : world) (a : app)
    : M (option string * app) :=
  let run :=
    target_range ← call EvIpconfig (get_local_network_range_windows (ipconfig w));
    mret (target_range, set_range_cache (Some (now w, target_range)) a) in
  match range_cache a with
  | Some (stored, cached) =>
      if now w <? stored + ttl then mret (cached, a) else run
  | None => run
  end.

(** How an execution of the script ends. *)
Inductive ending :=
  | Stopped          (* [st.stop()] *)
  | ScriptError      (* an escaped exception *)
  | Rerun.           (* [st.rerun()] *)

(** A click on "Start Full Network Scan" (offered while [scan_run] is
    [False]). *)
Definition start_scan (w : world) (a : app) : M (ending * app) :=
  let a := set_scan_run true a in
  admin ← is_admin w;
  if negb admin then mret (Stopped, set_scan_run false a)
  else
    '(target_range, a) ← get_local_network_range_windows_cached w a;
    match target_range with
    | None => mret (Stopped, a)
    | Some target_range =>
        wifi_devices ← call (EvSrp target_range) (scan_wifi_network (srp w target_range));
        let '(clients_list, a) := alloc (WifiList wifi_devices) a in
        enriched ←
          calls (EvGethostbyaddr ∘ c_ip <$> wifi_devices)
            (enrich_wifi_devices_with_hostname (gethostbyaddr w) wifi_devices);
        (* [enrich] returns a new empty list for an empty one and
           otherwise the list it was given, updated in place *)
        let '(enriched_wifi, a) :=
          match wifi_devices with
          | [] => alloc (WifiList []) a
          | _ => (clients_list, write clients_list (WifiList enriched) a)
          end in
        let a := set_wifi_results enriched_wifi a in
        bluetooth_devices ← call EvDiscover (scan_bluetooth_devices (discover w));
        match bluetooth_devices with
        | Raised => mret (ScriptError, a)
        | Returned bluetooth_devices =>
            let '(devices_list, a) := alloc (BtList bluetooth_devices) a in
            mret (Rerun, set_bt_results devices_list a)
        end
    end.

(** A click on "Scan Again" (offered while [scan_run] is [True]). *)
Definition scan_again (a : app) : app :=
  let a := set_scan_run false a in
  let '(r, a) := alloc (WifiList []) a in
  let a := set_wifi_results r a in
  let '(r, a) := alloc (BtList []) a in
  set_bt_results r a.

(** The two tables of the results page, in the order [pd.DataFrame]
    takes the rows from the lists. *)
Definition wifi_table (a : app) : list client := wifi_list a (wifi_results a).
Definition bt_table (a : app) : list device := bt_list a (bt_results a).

End Dashboard.

(** ** The dashboard's script *)

Module Script.
Import Dashboard.

(** The button whose click started this execution of the script, if a
    click did. *)
Inductive click :=
  | NoClick
  | StartFullNetworkScan
  | ScanAgain.

(** What an execution that runs to its end has put on the page: the
    info bar with the "Start Full Network Scan" button, or "Scan
    Complete!" with the two tables and the "Scan Again" button, where a
    table of an empty list is replaced by an info line ([None]). *)
Inductive page :=
  | BeforeScan
  | AfterScan (wifi : option (list client)) (bt : option (list device)).

Inductive finish :=
  | Ended (e : ending)      (* a button's handler ended the execution *)
  | Shown (p : page).       (* the script ran to its end *)

(** [if results: st.dataframe(...) else: st.info(...)]. *)
Definition table {A} (results : list A) : option (list A) :=
  match results with
  | [] => None
  | _ => Some results
  end.

(** One execution of the script on a session whose three entries exist.
    [st.button] is true only in the execution its click started, and
    only a button the execution gets to is asked: the first block is
    entered while [scan_run] is [False], the second while it is [True]. *)
Definition script (c : click) (w : world) (a : app) : M (finish * app) :=
  if negb (scan_run a) then
    match c with
    | StartFullNetworkScan => '(e, a) ← start_scan w a; mret (Ended e, a)
    | _ => mret (Shown BeforeScan, a)
    end
  else
    match c with
    | ScanAgain => mret (Ended Rerun, scan_again a)
    | _ => mret (Shown (AfterScan (table (wifi_table a)) (table (bt_table a))), a)
    end.

End Script.

(** The sessions the script gets into, execution after execution. *)
Inductive visited : Dashboard.app -> Prop :=
  | visited_init : visited Dashboard.init
  | visited_script c w a :
      visited a -> visited (value (Script.script c w a)).2.

(** ** Vocabulary of the properties *)

(** Every character of [s] is in the class [f]. *)
Fixpoint all_in (f : ascii -> bool) (s : string) : bool :=
  match s with
  | EmptyString => true
  | String c s' => f c && all_in f s'
  end.

(** [s] does not go on with a character of the class [f]. *)
Definition stops (f : ascii -> bool) (s : string) : bool :=
  match s with
  | EmptyString => true
  | String c _ => negb (f c)
  end.

(** A run of characters of the class [f], not empty. *)
Definition nonempty_run (f : ascii -> bool) (s : string) : Prop :=
  s <> ""%string /\ all_in f s = true.

(** The text of a group [\d+\.\d+\.\d+\.\d+]. *)
Definition quad_text (q : string) : Prop :=
  exists d1 d2 d3 d4,
    nonempty_run Re.is_digit d1 /\ nonempty_run Re.is_digit d2 /\ nonempty_run Re.is_digit d3 /\
    nonempty_run Re.is_digit d4 /\
    q = d1 +:+ "." +:+ d2 +:+ "." +:+ d3 +:+ "." +:+ d4.

(** The pattern read as a description of the matched text. *)
Definition pattern_text (s ip mask rest : string) : Prop :=
  exists sep1 ws1 ws2 sep2 ws3,
    nonempty_run Re.is_dot_or_space sep1 /\ all_in Re.is_space ws1 = true /\
    quad_text ip /\ nonempty_run Re.is_space ws2 /\
    nonempty_run Re.is_dot_or_space sep2 /\ all_in Re.is_space ws3 = true /\
    quad_text mask /\
    s = "IPv4 Address" +:+ sep1 +:+ ":" +:+ ws1 +:+ ip +:+ ws2 +:+
        "Subnet Mask" +:+ sep2 +:+ ":" +:+ ws3 +:+ mask +:+ rest.

(** The shapes [_parse_octet] accepts: one to three digits, no leading
    zero on a longer one, value at most 255. *)
Inductive octet_shape : string -> Z -> Prop :=
  | octet1 c :
      Re.is_digit c = true -> octet_shape (String c "") (Ipaddress.digit_val c)
  | octet2 c1 c2 :
      Re.is_digit c1 = true -> Re.is_digit c2 = true ->
      Ipaddress.digit_val c1 <> 0 ->
      octet_shape (String c1 (String c2 ""))
        (10 * Ipaddress.digit_val c1 + Ipaddress.digit_val c2)
  | octet3 c1 c2 c3 :
      Re.is_digit c1 = true -> Re.is_digit c2 = true -> Re.is_digit c3 = true ->
      Ipaddress.digit_val c1 <> 0 ->
      octet_shape (String c1 (String c2 (String c3 "")))
        (100 * Ipaddress.digit_val c1 + 10 * Ipaddress.digit_val c2
         + Ipaddress.digit_val c3).

(** The entry the prober's loop appends for one answered pair. *)
Definition client_of (element : arp_packet * arp_packet) : client :=
  Client (psrc element.2) (hwsrc element.2) None.

(** What a lookup leaves in the ["name"] entry. *)
Definition annotation (o : lookup_outcome) : string :=
  match o with
  | Hostname hostname => hostname
  | Herror | Timeout | OtherError => "N/A"
  end.

Definition annotate (gethostbyaddr : resolver) (i : nat) (c : client) : client :=
  Client (c_ip c) (c_mac c) (Some (annotation (gethostbyaddr i (c_ip c)))).

(** An advertisement without a usable name: none, the empty one, or
    the placeholder. *)
Definition unusable (d : BLEDevice) : Prop :=
  name d = None \/ name d = Some ""%string \/ name d = Some "Unknown"%string.

Global Instance unusable_dec d : Decision (unusable d).
Proof. unfold unusable. apply _. Defined.

(** The entry of an advertisement: its name and its link address. *)
Definition device_of (d : BLEDevice) : device :=
  Device (default ""%string (name d)) (address d).

(** The version and the integer of an address. *)
Definition version (a : IPAddress) : Z :=
  match a with IPv4Address _ => 4 | IPv6Address _ => 6 end.

Definition address_int (a : IPAddress) : Z :=
  match a with IPv4Address ip | IPv6Address ip => ip end.

(** Order of two hosts by their addresses as numbers: addresses of one
    version, the first integer not above the second. *)
Definition address_le (x y : client) : Prop :=
  exists a b,
    ip_address (c_ip x) = Some a /\ ip_address (c_ip y) = Some b
    /\ version a = version b /\ address_int a <= address_int b.

(** Order of two devices by name: character by character on the code
    points, upper case before lower case. *)
Definition name_le (x y : device) : Prop :=
  String.leb (d_name x) (d_name y) = true.

(** A host whose address reads as an IPv4 address, as the source
    address of an ARP reply does. *)
Definition valid_address (c : client) : Prop :=
  is_Some (Ipaddress.ipv4_address (c_ip c)).

(** A host whose address [ipaddress] can read, as an address of
    either version. *)
Definition readable (c : client) : Prop := is_Some (ip_address (c_ip c)).

(** Hosts whose addresses are all readable and of one version. *)
Definition one_version (clients : list client) : Prop :=
  exists v, Forall (fun c => version <$> ip_address (c_ip c) = Some v) clients.

(** The rows a display got to print: none when its sort raised, which
    happens before the first row. *)
Definition printed {A} (r : result (list A)) : list A :=
  match r with
  | Returned rows => rows
  | Raised => []
  end.

(** The value of a cache entry that is still young enough at the time
    of the run, if there is one. *)
Definition fresh_entry (w : world) (a : Dashboard.app) : option (option string) :=
  match Dashboard.range_cache a with
  | Some (stored, cached) =>
      if now w <? stored + Dashboard.ttl then Some cached else None
  | None => None
  end.

(** The range a dashboard run works with. *)
Definition used_range (w : world) (a : Dashboard.app) : option string :=
  match fresh_entry w a with
  | Some cached => cached
  | None => get_local_network_range_windows (ipconfig w)
  end.

(** The session's two references point at objects that exist. *)
Definition wf (a : Dashboard.app) : Prop :=
  (Dashboard.wifi_results a < Dashboard.next a)%nat
  /\ (Dashboard.bt_results a < Dashboard.next a)%nat.

(** The sessions the dashboard can get into (the two buttons are taken
    to be always there, which only adds sessions). *)
Inductive reachable : Dashboard.app -> Prop :=
  | reach_init : reachable Dashboard.init
  | reach_start w a :
      reachable a -> reachable (value (Dashboard.start_scan w a)).2
  | reach_again a : reachable a -> reachable (Dashboard.scan_again a).

(** What can be seen of a dashboard run: its calls, how the script
    ended, and the two tables of the session afterwards. *)
Definition observe (run : M (Dashboard.ending * Dashboard.app))
    : list event * Dashboard.ending * list client * list device :=
  (trace run, (value run).1,
   Dashboard.wifi_table (value run).2, Dashboard.bt_table (value run).2).

(** The world [w] with another radio outcome. *)
Definition with_discover (d : discover_outcome) (w : world) : world :=
  World (platform_windows w) (admin_probe w) (ipconfig w) (srp w)
    (gethostbyaddr w) d (now w).

(** The world [w] for a user without the privilege. *)
Definition unprivileged (w : world) : world :=
  World (platform_windows w) (Some false) (ipconfig w) (srp w)
    (gethostbyaddr w) (discover w) (now w).

(** The world [w] with another frame transport. *)
Definition with_srp (s : string -> srp_outcome) (w : world) : world :=
  World (platform_windows w) (admin_probe w) (ipconfig w) s
    (gethostbyaddr w) (discover w) (now w).

(** The cells of a printed row next to its number. *)
Definition wifi_cells (r : wifi_row) : string * string * string :=
  (w_ip r, w_mac r, w_name r).

Definition bluetooth_cells (r : bluetooth_row) : string * string :=
  (b_name r, b_mac r).

(** The cells the [i]-th reply of the transport should show: its source
    address, its hardware address, and what the [i]-th lookup left as a
    name, cut to the column. *)
Definition reply_cells (gethostbyaddr : resolver) (i : nat)
    (element : arp_packet * arp_packet) : string * string * string :=
  (psrc element.2, hwsrc element.2,
   str_take name_width (annotation (gethostbyaddr i (psrc element.2)))).

(** The cells an advertisement should show. *)
Definition advertisement_cells (d : BLEDevice) : string * string :=
  (str_take name_width (default ""%string (name d)), address d).

(** [p in s]. *)
Fixpoint contains (p s : string) : bool :=
  startswith p s
  || match s with
     | String _ s' => contains p s'
     | EmptyString => false
     end.

(** The first address of the block of [2 ^ (32 - p)] addresses that
    [a] lies in. *)
Definition network_base (a p : Z) : Z := 2 ^ (32 - p) * (a / 2 ^ (32 - p)).

(** ** Sample inputs *)

(** One adapter, as [ipconfig] prints it. *)
Definition ipconfig_sample : string :=
  "Ethernet adapter Ethernet:
   IPv4 Address. . . . . . . . . . . : 192.168.1.42
   Subnet Mask . . . . . . . . . . . : 255.255.255.0
   Default Gateway . . . . . . . . . : 192.168.1.1
".

(** An adapter that configured itself, then a connected one. *)
Definition ipconfig_two_adapters : string :=
  "Ethernet adapter Ethernet 2:
   Autoconfiguration IPv4 Address. . : 169.254.1.5
   Subnet Mask . . . . . . . . . . . : 255.255.0.0
Wireless LAN adapter Wi-Fi:
   IPv4 Address. . . . . . . . . . . : 192.168.1.42
   Subnet Mask . . . . . . . . . . . : 255.255.255.0
".

(** Only a self-configured adapter. *)
Definition ipconfig_link_local_only : string :=
  "Ethernet adapter Ethernet 2:
   Autoconfiguration IPv4 Address. . : 169.254.1.5
   Subnet Mask . . . . . . . . . . . : 255.255.0.0
".

(** An adapter on another network. *)
Definition ipconfig_other_network : string :=
  "Ethernet adapter Ethernet:
   IPv4 Address. . . . . . . . . . . : 10.0.0.5
   Subnet Mask . . . . . . . . . . . : 255.255.255.0
".

(** A first adapter whose address no machine can have, then a good one. *)
Definition ipconfig_unreadable_first : string :=
  "Ethernet adapter Ethernet:
   IPv4 Address. . . . . . . . . . . : 10.0.0.300
   Subnet Mask . . . . . . . . . . . : 255.255.255.0
Wireless LAN adapter Wi-Fi:
   IPv4 Address. . . . . . . . . . . : 192.168.1.42
   Subnet Mask . . . . . . . . . . . : 255.255.255.0
".

(** The requests for two addresses of the first network, and what
    arrives within the window: two replies that carry the address
    192.168.1.7, from two hardware addresses, and between them the
    reply of 192.168.1.1. *)
Definition two_requests : list arp_packet :=
  [ArpPacket "192.168.1.42" "00:00:00:00:00:01" "192.168.1.1";
   ArpPacket "192.168.1.42" "00:00:00:00:00:01" "192.168.1.7"]%string.

Definition duplicate_replies : list arp_packet :=
  [ArpPacket "192.168.1.7" "aa:aa:aa:aa:aa:aa" "192.168.1.42";
   ArpPacket "192.168.1.1" "aa:bb:cc:dd:ee:ff" "192.168.1.42";
   ArpPacket "192.168.1.7" "bb:bb:bb:bb:bb:bb" "192.168.1.42"]%string.

(** Two answers, the higher address first. *)
Definition descending_answers : list (arp_packet * arp_packet) :=
  [(ArpPacket "10.0.0.5" "00:00:00:00:00:01" "10.0.0.2",
    ArpPacket "10.0.0.2" "11:22:33:44:55:66" "10.0.0.5");
   (ArpPacket "10.0.0.5" "00:00:00:00:00:01" "10.0.0.1",
    ArpPacket "10.0.0.1" "aa:bb:cc:dd:ee:ff" "10.0.0.5")]%string.

Definition two_clients : list client :=
  [Client "10.0.0.1" "aa:bb:cc:dd:ee:ff" None;
   Client "10.0.0.2" "11:22:33:44:55:66" None]%string.

(** The same two hosts, the higher address first. *)
Definition two_clients_descending : list client :=
  [Client "10.0.0.2" "11:22:33:44:55:66" None;
   Client "10.0.0.1" "aa:bb:cc:dd:ee:ff" None]%string.

(** Hosts with IPv6 addresses, the higher one first, and hosts with
    addresses of both versions. *)
Definition ipv6_clients : list client :=
  [Client "::2" "11:22:33:44:55:66" None;
   Client "::1" "aa:bb:cc:dd:ee:ff" None]%string.

Definition mixed_clients : list client :=
  [Client "10.0.0.2" "11:22:33:44:55:66" None;
   Client "::1" "aa:bb:cc:dd:ee:ff" None]%string.

(** Hosts of which one has no address that [ipaddress] can read. *)
Definition clients_with_bad_address : list client :=
  [Client "10.0.0.2" "11:22:33:44:55:66" (Some "N/A");
   Client "10.0.0.300" "00:00:00:00:00:02" (Some "N/A");
   Client "10.0.0.1" "aa:bb:cc:dd:ee:ff" (Some "router.local")]%string.

(** A resolver that knows the router and times out on anything else. *)
Definition router_only : resolver :=
  fun _ ip => if String.eqb ip "10.0.0.1" then Hostname "router.local" else Timeout.

(** Five advertisements, two of them with a usable name. *)
Definition heard : list BLEDevice :=
  [Build_BLEDevice "00:11:22:33:44:55" (Some "Speaker");
   Build_BLEDevice "00:11:22:33:44:56" None;
   Build_BLEDevice "00:11:22:33:44:57" (Some "Unknown");
   Build_BLEDevice "00:11:22:33:44:58" (Some "");
   Build_BLEDevice "00:11:22:33:44:59" (Some "unknown")]%string.

(** A world in which everything works and nothing answers. *)
Definition quiet_world : world :=
  World true (Some true) (IpconfigOutput ipconfig_sample)
    (fun _ => SrpAnswered []) (fun _ _ => Herror) (Discovered []) 0.

(** A world whose replies come in with the higher address first and
    whose radio hears "speaker" before "Band". *)
Definition descending_world : world :=
  World true (Some true) (IpconfigOutput ipconfig_other_network)
    (fun _ => SrpAnswered descending_answers) router_only
    (Discovered
       [Build_BLEDevice "00:11:22:33:44:55" (Some "speaker");
        Build_BLEDevice "00:11:22:33:44:56" (Some "Band")]%string)
    0.

(** The transport on the first network: the router answers a probe of
    192.168.1.0/24, nothing answers a probe of another range. *)
Definition srp_first_network (ip_range : string) : srp_outcome :=
  if String.eqb ip_range "192.168.1.0/24" then
    SrpAnswered [(ArpPacket "192.168.1.42" "00:00:00:00:00:01" "192.168.1.1",
                  ArpPacket "192.168.1.1" "aa:bb:cc:dd:ee:ff" "192.168.1.42")]
  else SrpAnswered [].

(** The transport on the second network: its router answers a probe of
    10.0.0.0/24 only. *)
Definition srp_second_network (ip_range : string) : srp_outcome :=
  if String.eqb ip_range "10.0.0.0/24" then
    SrpAnswered [(ArpPacket "10.0.0.5" "00:00:00:00:00:01" "10.0.0.1",
                  ArpPacket "10.0.0.1" "11:22:33:44:55:66" "10.0.0.5")]
  else SrpAnswered [].

(** The first run, on the first network. *)
Definition first_world : world :=
  World true (Some true) (IpconfigOutput ipconfig_sample) srp_first_network
    (fun _ _ => Herror) (Discovered []) 0.

(** The second run, five seconds later, the machine now being on the
    second network. *)
Definition second_world : world :=
  World true (Some true) (IpconfigOutput ipconfig_other_network)
    srp_second_network (fun _ _ => Herror) (Discovered []) 5.

(** The session after the first run. *)
Definition after_first_run : Dashboard.app :=
  (value (Dashboard.start_scan first_world Dashboard.init)).2.

(** What a German Windows prints for the adapter of [ipconfig_sample]. *)
Definition ipconfig_german : string :=
  "Ethernet-Adapter Ethernet:
   IPv4-Adresse  . . . . . . . . . . : 192.168.1.42
   Subnetzmaske  . . . . . . . . . . : 255.255.255.0
   Standardgateway . . . . . . . . . : 192.168.1.1
".

(** A machine that is not connected: only the self-configured adapter. *)
Definition unconnected_world : world :=
  World true (Some true) (IpconfigOutput ipconfig_link_local_only)
    (fun _ => SrpAnswered []) (fun _ _ => Herror) (Discovered []) 0.

(** * Properties *)

(** ** Addresses and masks *)

Section ipaddress_facts.
Import Ipaddress.

Lemma digit_cases c :
  Re.is_digit c = true ->
  In c ["0"; "1"; "2"; "3"; "4"; "5"; "6"; "7"; "8"; "9"]%char.
Proof.
  destruct c as [[] [] [] [] [] [] [] []]; cbv; intros H;
    first [discriminate H | tauto].
Qed.

Lemma digit_val_range c : Re.is_digit c = true -> 0 <= digit_val c <= 9.
Proof.
  intros H%digit_cases. simpl in H.
  repeat (destruct H as [<- | H]; [cbv; split; discriminate|]). contradiction.
Qed.

Lemma digit_val_inj c c' :
  Re.is_digit c = true -> Re.is_digit c' = true ->
  digit_val c = digit_val c' -> c = c'.
Proof.
  intros H%digit_cases H'%digit_cases. simpl in H, H'.
  repeat (destruct H as [<- | H]; [|]); try contradiction;
    repeat (destruct H' as [<- | H']; [|]); try contradiction;
    cbv; intros E; first [reflexivity | discriminate E].
Qed.

Lemma leading_zero c : Re.is_digit c = true -> Ascii.eqb c "0" = false -> digit_val c <> 0.
Proof.
  intros H%digit_cases. simpl in H.
  repeat (destruct H as [<- | H]; [cbv; congruence|]). contradiction.
Qed.

Lemma parse_octet_shape o v :
  parse_octet o = Some v -> octet_shape o v /\ 0 <= v <= 255.
Proof.
  unfold parse_octet. destruct o as [|c1 o]; [discriminate|].
  destruct (all_digits (String c1 o)) eqn:Hd; [|discriminate]. cbn [negb].
  destruct o as [|c2 [|c3 [|c4 o]]]; cbn [String.length Nat.ltb Nat.leb];
    [| | |discriminate];
    simpl in Hd; repeat (apply andb_prop in Hd as [? Hd]).
  - destruct (_ && _); [discriminate|]. cbn [int_of_digits].
    destruct (255 <? _) eqn:Hlt; [discriminate|]. intros [= <-].
    pose proof (digit_val_range c1 ltac:(assumption)). split; [|lia].
    replace (10 * 0 + digit_val c1) with (digit_val c1) by lia.
    by constructor.
  - destruct (Ascii.eqb c1 "0") eqn:Hz.
    { replace (String.eqb _ "0") with false; [discriminate|].
      symmetry. apply String.eqb_neq. discriminate. }
    rewrite andb_false_r. cbn [int_of_digits].
    destruct (255 <? _) eqn:Hlt; [discriminate|]. intros [= <-].
    apply Z.ltb_ge in Hlt.
    pose proof (digit_val_range c1 ltac:(assumption)).
    pose proof (digit_val_range c2 ltac:(assumption)).
    split; [|lia].
    replace (10 * (10 * 0 + digit_val c1) + digit_val c2)
      with (10 * digit_val c1 + digit_val c2) by lia.
    constructor; auto using leading_zero.
  - destruct (Ascii.eqb c1 "0") eqn:Hz.
    { replace (String.eqb _ "0") with false; [discriminate|].
      symmetry. apply String.eqb_neq. discriminate. }
    rewrite andb_false_r. cbn [int_of_digits].
    destruct (255 <? _) eqn:Hlt; [discriminate|]. intros [= <-].
    apply Z.ltb_ge in Hlt.
    pose proof (digit_val_range c1 ltac:(assumption)).
    pose proof (digit_val_range c2 ltac:(assumption)).
    pose proof (digit_val_range c3 ltac:(assumption)).
    split; [|lia].
    replace (10 * (10 * (10 * 0 + digit_val c1) + digit_val c2) + digit_val c3)
      with (100 * digit_val c1 + 10 * digit_val c2 + digit_val c3) by lia.
    constructor; auto using leading_zero.
Qed.

Lemma octet_shape_inj o o' v : octet_shape o v -> octet_shape o' v -> o = o'.
Proof.
  intros H H'.
  destruct H; inversion H'; subst;
    repeat match goal with
      | H : Re.is_digit ?c = true |- _ =>
          lazymatch goal with
          | _ : 0 <= digit_val c <= 9 |- _ => fail
          | _ => pose proof (digit_val_range c H)
          end
      end;
    try lia;
    repeat f_equal; apply digit_val_inj; auto; lia.
Qed.

Lemma parse_octet_inj o o' v :
  parse_octet o = Some v -> parse_octet o' = Some v -> o = o'.
Proof.
  intros [H _]%parse_octet_shape [H' _]%parse_octet_shape.
  eauto using octet_shape_inj.
Qed.

Lemma split_not_nil sep s : split sep s <> [].
Proof.
  destruct s as [|c s]; simpl; [discriminate|].
  destruct (Ascii.eqb c sep); [discriminate|]. by destruct (split sep s).
Qed.

Lemma concat_split sep s : String.concat (String sep "") (split sep s) = s.
Proof.
  induction s as [|c s IH]; simpl; [done|].
  destruct (Ascii.eqb c sep) eqn:E.
  - apply Ascii.eqb_eq in E as ->.
    pose proof (split_not_nil sep s).
    simpl. destruct (split sep s) eqn:Es; [done|]. by rewrite <- IH.
  - pose proof (split_not_nil sep s).
    destruct (split sep s) as [|h [|h' t]] eqn:Es; [done| |].
    + simpl in *. by rewrite IH.
    + change (String.concat (String sep "") (String c h :: h' :: t))
        with (String c (h +:+ String sep "" +:+ String.concat (String sep "") (h' :: t))).
      by rewrite <- IH.
Qed.

Lemma ip_int_octets s a :
  ip_int_from_string s = Some a ->
  exists o1 o2 o3 o4 b1 b2 b3 b4,
    split "." s = [o1; o2; o3; o4] /\
    parse_octet o1 = Some b1 /\ parse_octet o2 = Some b2 /\
    parse_octet o3 = Some b3 /\ parse_octet o4 = Some b4 /\
    a = ((b1 * 256 + b2) * 256 + b3) * 256 + b4.
Proof.
  unfold ip_int_from_string.
  destruct (split "." s) as [|o1 [|o2 [|o3 [|o4 [|]]]]]; try discriminate.
  destruct (parse_octet o1) as [b1|] eqn:?; cbn; [|discriminate].
  destruct (parse_octet o2) as [b2|] eqn:?; cbn; [|discriminate].
  destruct (parse_octet o3) as [b3|] eqn:?; cbn; [|discriminate].
  destruct (parse_octet o4) as [b4|] eqn:?; cbn; [|discriminate].
  intros [= <-]. by exists o1, o2, o3, o4, b1, b2, b3, b4.
Qed.

Lemma ip_int_range s a : ip_int_from_string s = Some a -> 0 <= a < 2 ^ 32.
Proof.
  intros (o1 & o2 & o3 & o4 & b1 & b2 & b3 & b4 & _ & H1 & H2 & H3 & H4 & ->)%ip_int_octets.
  apply parse_octet_shape in H1 as [_ ?], H2 as [_ ?], H3 as [_ ?], H4 as [_ ?].
  lia.
Qed.

Lemma link_local_octets b1 b2 b3 b4 :
  0 <= b1 <= 255 -> 0 <= b2 <= 255 -> 0 <= b3 <= 255 -> 0 <= b4 <= 255 ->
  link_local (((b1 * 256 + b2) * 256 + b3) * 256 + b4) = true <->
  b1 = 169 /\ b2 = 254.
Proof.
  intros. unfold link_local. rewrite Z.eqb_eq, Z.shiftr_div_pow2 by lia.
  change (2 ^ 16) with 65536.
  replace ((((b1 * 256 + b2) * 256 + b3) * 256 + b4))
    with ((b3 * 256 + b4) + (b1 * 256 + b2) * 65536) by lia.
  rewrite Z.div_add by lia. rewrite Z.div_small by lia. lia.
Qed.

(** On an address [ipaddress] accepts, the textual test
    [ip_str.startswith("169.254")] is membership in 169.254.0.0/16. *)
Lemma startswith_link_local ip a :
  ip_int_from_string ip = Some a ->
  startswith "169.254" ip = link_local a.
Proof.
  intros Hip.
  destruct (ip_int_octets _ _ Hip)
    as (o1 & o2 & o3 & o4 & b1 & b2 & b3 & b4 & Hs & H1 & H2 & H3 & H4 & ->).
  pose proof (parse_octet_shape _ _ H1) as [_ ?].
  pose proof (parse_octet_shape _ _ H2) as [_ ?].
  pose proof (parse_octet_shape _ _ H3) as [_ ?].
  pose proof (parse_octet_shape _ _ H4) as [_ ?].
  destruct (link_local _) eqn:Hl.
  - apply link_local_octets in Hl as [-> ->]; [|lia..].
    assert (o1 = "169"%string) as -> by (by apply (parse_octet_inj _ _ 169)).
    assert (o2 = "254"%string) as -> by (by apply (parse_octet_inj _ _ 254)).
    rewrite <- (concat_split "." ip), Hs. reflexivity.
  - destruct (startswith "169.254" ip) eqn:Hp; [|done].
    exfalso. apply not_true_iff_false in Hl. apply Hl.
    apply link_local_octets; [lia..|].
    do 7 (destruct ip as [|? ip]; [discriminate Hp|];
          cbn [startswith] in Hp; apply andb_prop in Hp as [<-%Ascii.eqb_eq Hp]).
    simpl in Hs.
    destruct (split "." ip) as [|h t] eqn:Et; [by apply split_not_nil in Et|].
    injection Hs as <- <- _. split.
    + vm_compute in H1. congruence.
    + apply parse_octet_shape in H2 as [Hsh _].
      inversion Hsh; subst. reflexivity.
Qed.

Lemma all_digits_no_dot s : all_digits s = true -> split "." s = [s].
Proof.
  induction s as [|c s IH]; simpl; [done|].
  intros [Hc Hs]%andb_prop. rewrite (IH Hs).
  destruct (Ascii.eqb c ".") eqn:E; [|done].
  apply Ascii.eqb_eq in E as ->. discriminate Hc.
Qed.

Lemma netmask_prefix p :
  0 <= p <= 32 ->
  prefix_from_ip_int (netmask_of p) = Some p /\ ip_int_from_prefix p = netmask_of p.
Proof.
  intros Hp.
  assert (exists n : nat, p = Z.of_nat n /\ (n <= 32)%nat) as (n & -> & Hn).
  { exists (Z.to_nat p). lia. }
  do 33 (destruct n as [|n]; [by vm_compute|]). lia.
Qed.

Lemma dotted_make_netmask mask p :
  ip_int_from_string mask = Some (netmask_of p) -> 0 <= p <= 32 ->
  make_netmask mask = Some p.
Proof.
  intros Hm Hp. unfold make_netmask.
  assert (prefix_from_prefix_string mask = None) as ->.
  { unfold prefix_from_prefix_string. destruct mask; [done|].
    destruct (all_digits _) eqn:Hd; [|done].
    apply all_digits_no_dot in Hd. unfold ip_int_from_string in Hm.
    by rewrite Hd in Hm. }
  unfold prefix_from_ip_string. rewrite Hm. simpl.
  by destruct (netmask_prefix p Hp) as [-> _].
Qed.
End ipaddress_facts.

(** ** The range resolver *)

(** *** The pattern *)

Lemma span_spec f s a b :
  Re.span f s = (a, b) -> s = a +:+ b /\ all_in f a = true /\ stops f b = true.
Proof.
  revert a b. induction s as [|c s IH]; intros a b; simpl.
  - by intros [= <- <-].
  - destruct (f c) eqn:Hc.
    + destruct (Re.span f s) as [a' b'] eqn:Hs. intros [= <- <-].
      destruct (IH _ _ eq_refl) as (-> & Ha & Hb). simpl. by rewrite Hc, Ha.
    + intros [= <- <-]. simpl. by rewrite Hc.
Qed.

Lemma span_app f a b :
  all_in f a = true -> stops f b = true -> Re.span f (a +:+ b) = (a, b).
Proof.
  intros Ha Hb. induction a as [|c a IH]; simpl in *.
  - destruct b as [|c b]; [done|]. simpl in *. by destruct (f c).
  - apply andb_prop in Ha as [-> Ha]. by rewrite (IH Ha).
Qed.

Lemma plus_spec f s a b :
  Re.plus f s = Some (a, b) <-> (s = a +:+ b /\ nonempty_run f a /\ stops f b = true).
Proof.
  unfold Re.plus, nonempty_run. split.
  - destruct (Re.span f s) as [a' b'] eqn:Hs.
    apply span_spec in Hs as (-> & Ha & Hb).
    destruct a'; [done|]. by intros [= <- <-].
  - intros (-> & [Hne Ha] & Hb). rewrite (span_app f a b Ha Hb).
    by destruct a.
Qed.

Lemma plus_app f a b :
  nonempty_run f a -> stops f b = true -> Re.plus f (a +:+ b) = Some (a, b).
Proof. intros. by apply plus_spec. Qed.

Lemma lit_spec p s r : Re.lit p s = Some r <-> s = p +:+ r.
Proof.
  revert s. induction p as [|a p IH]; intros s; simpl.
  - split; [by intros [= ->]|by intros ->].
  - destruct s as [|b s]; [split; discriminate|].
    destruct (Ascii.eqb_spec a b) as [->|Hne].
    + rewrite IH. split; [by intros ->|by intros [= ->]].
    + split; [discriminate|]. intros [= ? _]. done.
Qed.

Lemma lit_app p r : Re.lit p (p +:+ r) = Some r.
Proof. by apply lit_spec. Qed.

Lemma chr_spec a s r : Re.chr a s = Some r <-> s = String a r.
Proof.
  unfold Re.chr. destruct s as [|b s]; [split; discriminate|].
  destruct (Ascii.eqb_spec a b) as [->|Hne].
  - split; [by intros [= ->]|by intros [= ->]].
  - split; [discriminate|]. intros [= ? _]. done.
Qed.

Lemma str_app_assoc (a b c : string) : (a +:+ b) +:+ c = a +:+ b +:+ c.
Proof.
  induction a as [|x a IH]; [done|].
  change (String x ((a +:+ b) +:+ c) = String x (a +:+ b +:+ c)).
  by rewrite IH.
Qed.

Lemma chr_app a r : Re.chr a (String a "" +:+ r) = Some r.
Proof. apply chr_spec. done. Qed.

Lemma run_stops_dot d r : nonempty_run Re.is_digit d -> stops Re.is_digit ("." +:+ r) = true.
Proof. done. Qed.

Lemma dotted_quad_spec s q r :
  Re.dotted_quad s = Some (q, r)
  <-> (quad_text q /\ s = q +:+ r /\ stops Re.is_digit r = true).
Proof.
  unfold Re.dotted_quad, quad_text. split.
  - intros H.
    destruct (Re.plus Re.is_digit s) as [[d1 s1]|] eqn:H1; [|done]. cbn [mbind option_bind] in H.
    destruct (Re.chr "." s1) as [s2|] eqn:C1; [|done]. cbn [mbind option_bind] in H.
    destruct (Re.plus Re.is_digit s2) as [[d2 s3]|] eqn:H2; [|done]. cbn [mbind option_bind] in H.
    destruct (Re.chr "." s3) as [s4|] eqn:C2; [|done]. cbn [mbind option_bind] in H.
    destruct (Re.plus Re.is_digit s4) as [[d3 s5]|] eqn:H3; [|done]. cbn [mbind option_bind] in H.
    destruct (Re.chr "." s5) as [s6|] eqn:C3; [|done]. cbn [mbind option_bind] in H.
    destruct (Re.plus Re.is_digit s6) as [[d4 s7]|] eqn:H4; [|done]. cbn [mbind option_bind] in H.
    injection H as <- <-.
    apply plus_spec in H1 as (-> & R1 & _), H2 as (-> & R2 & _),
      H3 as (-> & R3 & _), H4 as (-> & R4 & St).
    apply chr_spec in C1 as ->, C2 as ->, C3 as ->.
    split; [by exists d1, d2, d3, d4|]. split; [|done].
    change (String "." ?x) with ("." +:+ x).
    by rewrite !str_app_assoc.
  - intros ((d1 & d2 & d3 & d4 & R1 & R2 & R3 & R4 & ->) & -> & St).
    rewrite !str_app_assoc.
    rewrite (plus_app Re.is_digit d1) by done.
    cbn [mbind option_bind]. rewrite chr_app. cbn [mbind option_bind].
    rewrite (plus_app Re.is_digit d2) by done.
    cbn [mbind option_bind]. rewrite chr_app. cbn [mbind option_bind].
    rewrite (plus_app Re.is_digit d3) by done.
    cbn [mbind option_bind]. rewrite chr_app. cbn [mbind option_bind].
    rewrite (plus_app Re.is_digit d4) by done.
    done.
Qed.

Lemma dotted_quad_app q r :
  quad_text q -> stops Re.is_digit r = true -> Re.dotted_quad (q +:+ r) = Some (q, r).
Proof. intros. by apply dotted_quad_spec. Qed.

Lemma quad_starts_with_digit q r : quad_text q -> stops Re.is_space (q +:+ r) = true.
Proof.
  intros (d1 & d2 & d3 & d4 & [Hne Hd] & _ & _ & _ & ->).
  destruct d1 as [|c d1]; [done|]. simpl in *.
  apply andb_prop in Hd as [Hc _].
  destruct c as [[] [] [] [] [] [] [] []]; done.
Qed.

(** [match_at] finds exactly the texts the pattern describes, the last
    group taking every digit that follows. *)
Theorem match_at_spec s ip mask rest :
  Re.match_at s = Some (ip, mask, rest)
  <-> (pattern_text s ip mask rest /\ stops Re.is_digit rest = true).
Proof.
  unfold Re.match_at, pattern_text. split.
  - intros H.
    destruct (Re.lit "IPv4 Address" s) as [s1|] eqn:L1; [|done]. cbn [mbind option_bind] in H.
    destruct (Re.plus Re.is_dot_or_space s1) as [[sep1 s2]|] eqn:P1; [|done]. cbn [mbind option_bind] in H.
    destruct (Re.chr ":" s2) as [s3|] eqn:C1; [|done]. cbn [mbind option_bind] in H.
    destruct (Re.span Re.is_space s3) as [ws1 s4] eqn:S1.
    destruct (Re.dotted_quad s4) as [[ip' s5]|] eqn:Q1; [|done]. cbn [mbind option_bind] in H.
    destruct (Re.plus Re.is_space s5) as [[ws2 s6]|] eqn:P2; [|done]. cbn [mbind option_bind] in H.
    destruct (Re.lit "Subnet Mask" s6) as [s7|] eqn:L2; [|done]. cbn [mbind option_bind] in H.
    destruct (Re.plus Re.is_dot_or_space s7) as [[sep2 s8]|] eqn:P3; [|done]. cbn [mbind option_bind] in H.
    destruct (Re.chr ":" s8) as [s9|] eqn:C2; [|done]. cbn [mbind option_bind] in H.
    destruct (Re.span Re.is_space s9) as [ws3 s10] eqn:S2.
    destruct (Re.dotted_quad s10) as [[mask' s11]|] eqn:Q2; [|done]. cbn [mbind option_bind] in H.
    injection H as <- <- <-.
    apply lit_spec in L1 as ->, L2 as ->.
    apply plus_spec in P1 as (-> & R1 & _), P2 as (-> & R2 & _), P3 as (-> & R3 & _).
    apply chr_spec in C1 as ->, C2 as ->.
    apply span_spec in S1 as (-> & W1 & _), S2 as (-> & W2 & _).
    apply dotted_quad_spec in Q1 as (T1 & -> & _), Q2 as (T2 & -> & St).
    split; [|done]. exists sep1, ws1, ws2, sep2, ws3. split_and!; try done.
  - intros ((sep1 & ws1 & ws2 & sep2 & ws3 & R1 & W1 & T1 & R2 & R3 & W2 & T2 & ->) & St).
    rewrite lit_app.
    cbn [mbind option_bind].
    rewrite (plus_app Re.is_dot_or_space sep1) by done.
    cbn [mbind option_bind]. rewrite chr_app. cbn [mbind option_bind].
    rewrite (span_app Re.is_space ws1 _ W1 (quad_starts_with_digit ip _ T1)).
    rewrite (dotted_quad_app ip).
    2:{ done. }
    2:{ destruct R2 as [Hne Hw]. destruct ws2 as [|c ws2]; [done|]. simpl in *.
        apply andb_prop in Hw as [Hc _].
        destruct c as [[] [] [] [] [] [] [] []]; done. }
    cbn [mbind option_bind].
    rewrite (plus_app Re.is_space ws2) by done.
    cbn [mbind option_bind].
    rewrite lit_app.
    cbn [mbind option_bind].
    rewrite (plus_app Re.is_dot_or_space sep2) by done.
    cbn [mbind option_bind]. rewrite chr_app. cbn [mbind option_bind].
    rewrite (span_app Re.is_space ws3 _ W2 (quad_starts_with_digit mask _ T2)).
    rewrite (dotted_quad_app mask) by done.
    done.
Qed.

(** *** The scan over the matches *)

Lemma finditer_sample :
  Re.finditer ipconfig_sample = [("192.168.1.42", "255.255.255.0")%string].
Proof. reflexivity. Qed.

Lemma finditer_two_adapters :
  Re.finditer ipconfig_two_adapters
  = [("169.254.1.5", "255.255.0.0"); ("192.168.1.42", "255.255.255.0")]%string.
Proof. reflexivity. Qed.

(** The two groups of a match are never empty, so the test
    [ip_str and mask_str] always passes. *)
Lemma dotted_quad_truthy s q r : Re.dotted_quad s = Some (q, r) -> truthy q = true.
Proof.
  unfold Re.dotted_quad. intros H.
  repeat (match type of H with
          | (?m ≫= _) = Some _ => destruct m as [[]|] eqn:?; simpl in H; [|discriminate H]
          | (?m ≫= _) = Some _ => destruct m as [|] eqn:?; simpl in H; [|discriminate H]
          end).
  injection H as <- _. by destruct s0.
Qed.

Lemma match_at_truthy s ip mask rest :
  Re.match_at s = Some (ip, mask, rest) -> truthy ip = true /\ truthy mask = true.
Proof.
  unfold Re.match_at. intros H.
  repeat (match type of H with
          | (?m ≫= _) = Some _ => destruct m as [[]|] eqn:?; simpl in H; [|discriminate H]
          | (?m ≫= _) = Some _ => destruct m as [|] eqn:?; simpl in H; [|discriminate H]
          | (let '(_, _) := ?m in _) = Some _ => destruct m eqn:?; simpl in H
          end).
  injection H as <- <- _. eauto using dotted_quad_truthy.
Qed.

Lemma finditer_from_truthy skip s :
  Forall (fun pair => truthy pair.1 = true /\ truthy pair.2 = true)
    (Re.finditer_from skip s).
Proof.
  revert skip. induction s as [|c s IH]; intros skip; simpl; [constructor|].
  destruct skip; [|apply IH].
  destruct (Re.match_at (String c s)) as [[[ip mask] rest]|] eqn:Hm; [|apply IH].
  constructor; [|apply IH]. simpl. eauto using match_at_truthy.
Qed.

Lemma first_network_skip skipped rest :
  forallb (fun pair => startswith "169.254" pair.1) skipped = true ->
  first_network (skipped ++ rest) = first_network rest.
Proof.
  induction skipped as [|[ip mask] skipped IH]; [done|].
  cbn [forallb app first_network fst].
  intros [-> H]%andb_prop. rewrite andb_false_r. auto.
Qed.

Lemma link_local_pair_skipped pair :
  link_local_pair pair = true -> startswith "169.254" pair.1 = true.
Proof.
  unfold link_local_pair.
  destruct (Ipaddress.ip_int_from_string pair.1) as [a|] eqn:Ha; [|done].
  by rewrite (startswith_link_local _ _ Ha).
Qed.

Lemma parsed_truthy s a : Ipaddress.ip_int_from_string s = Some a -> truthy s = true.
Proof. by destruct s. Qed.

(** C1: the resolver returns the network of the first pair, in document
    order, whose address lies outside 169.254.0.0/16 (every pair before
    it being link-local): that pair's address masked with its subnet
    mask, written as base address, slash, prefix length. *)
Theorem resolver_first_qualifying_pair
    (text : string) (skipped later : list (string * string))
    (ip mask : string) (a p : Z) :
  Re.finditer text = skipped ++ (ip, mask) :: later ->
  forallb link_local_pair skipped = true ->
  Ipaddress.ip_int_from_string ip = Some a ->
  link_local a = false ->
  Ipaddress.ip_int_from_string mask = Some (netmask_of p) ->
  0 <= p <= 32 ->
  get_local_network_range_windows (IpconfigOutput text)
  = Some (Ipaddress.cidr (Z.land a (netmask_of p)) p).
Proof.
  intros Hfind Hskip Hip Hll Hmask Hp. simpl. rewrite Hfind.
  rewrite first_network_skip.
  2:{ apply forallb_forall. intros pair Hin.
      apply link_local_pair_skipped.
      by eapply forallb_forall in Hskip. }
  cbn [first_network].
  rewrite (parsed_truthy _ _ Hip), (parsed_truthy _ _ Hmask).
  rewrite (startswith_link_local _ _ Hip), Hll. cbn [andb negb].
  unfold Ipaddress.interface_network. rewrite Hip. cbn [mbind option_bind].
  rewrite (dotted_make_netmask _ _ Hmask Hp). cbn [mbind option_bind].
  by destruct (netmask_prefix p Hp) as [_ ->].
Qed.

(** The spec's example, behind a link-local adapter: 192.168.1.42 with
    mask 255.255.255.0 gives 192.168.1.0/24. *)
Lemma resolver_first_qualifying_pair_witness :
  get_local_network_range_windows (IpconfigOutput ipconfig_two_adapters)
  = Some "192.168.1.0/24"%string.
Proof.
  exact (resolver_first_qualifying_pair ipconfig_two_adapters
           [("169.254.1.5", "255.255.0.0")%string] []
           "192.168.1.42" "255.255.255.0" 3232235818 24
           eq_refl eq_refl eq_refl eq_refl eq_refl
           (conj (Zle_bool_imp_le 0 24 eq_refl) (Zle_bool_imp_le 24 32 eq_refl))).
Defined.

Lemma first_network_qualifying matches r :
  first_network matches = Some r -> existsb qualifying matches = true.
Proof.
  induction matches as [|[ip mask] rest IH]; cbn [first_network existsb]; [done|].
  destruct (truthy ip && truthy mask && negb (startswith "169.254" ip)) eqn:Hc.
  - intros Hn. apply orb_true_intro. left.
    unfold Ipaddress.interface_network in Hn. unfold qualifying. simpl.
    destruct (Ipaddress.ip_int_from_string ip) as [a|] eqn:Ha; [|done].
    simpl in Hn.
    destruct (Ipaddress.make_netmask mask); [|done].
    rewrite <- (startswith_link_local _ _ Ha).
    by apply andb_prop in Hc as [_ ->].
  - intros Hn. rewrite (IH Hn). apply orb_true_r.
Qed.

Lemma ipconfig_not_in_lookups (l : list client) :
  count_occ event_eq_dec (EvGethostbyaddr ∘ c_ip <$> l) EvIpconfig = 0%nat.
Proof.
  induction l as [|c l IH]; [done|].
  rewrite fmap_cons. cbn [count_occ].
  by destruct (event_eq_dec _ _).
Qed.

Lemma ipconfig_at_most_once (w : world) (a : Dashboard.app) :
  (count_occ event_eq_dec (trace (Scanner.main w)) EvIpconfig <= 1)%nat
  /\ (count_occ event_eq_dec (trace (Dashboard.start_scan w a)) EvIpconfig <= 1)%nat.
Proof.
  destruct w as [pw ap ic sr g d t].
  unfold Scanner.main, Dashboard.start_scan, is_admin, call, calls,
    Dashboard.get_local_network_range_windows_cached; simpl.
  split.
  - destruct (default false ap); simpl; [|lia].
    destruct pw; simpl; [|lia].
    destruct (get_local_network_range_windows ic) as [r|]; simpl; [|lia].
    destruct (scan_bluetooth_devices d); simpl;
      [destruct (display_wifi_results _); simpl|];
      rewrite count_occ_app, ipconfig_not_in_lookups; simpl; lia.
  - destruct (default false ap); simpl; [|lia].
    destruct (Dashboard.range_cache a) as [[stored cached]|]; simpl;
      [destruct (t <? stored + Dashboard.ttl); simpl; [destruct cached as [r|]|]|];
      simpl; try lia;
      try (destruct (get_local_network_range_windows ic) as [r|]; simpl; [|lia]);
      destruct (scan_wifi_network (sr r)), (scan_bluetooth_devices d); simpl;
      rewrite ?count_occ_app, ?ipconfig_not_in_lookups; simpl; lia.
Qed.

(** C5: the resolver returns no range whenever the input holds no
    qualifying pair: when [ipconfig] gave no text, when the text has no
    address/mask pair at all, when every pair is link-local (such as
    169.254.1.5 with 255.255.0.0) or unusable.  Nothing is retried: a
    run of either program asks for the interface configuration at most
    once, and when the terminal program gets no range from it the run
    ends there, with exit status 1. *)
Theorem resolver_range_not_found
    (run : ipconfig_outcome) (w : world) (a : Dashboard.app) :
  ((forall text, run = IpconfigOutput text ->
      forallb (fun pair => negb (qualifying pair)) (Re.finditer text) = true) ->
   get_local_network_range_windows run = None)
  /\ (count_occ event_eq_dec (trace (Scanner.main w)) EvIpconfig <= 1)%nat
  /\ (count_occ event_eq_dec (trace (Dashboard.start_scan w a)) EvIpconfig <= 1)%nat
  /\ (default false (admin_probe w) = true ->
      platform_windows w = true ->
      get_local_network_range_windows (ipconfig w) = None ->
      Scanner.main w = Run [EvIsAdmin; EvIpconfig] (Exit 1)).
Proof.
  destruct (ipconfig_at_most_once w a) as [Hs Hd].
  split; [|split; [exact Hs|split; [exact Hd|]]].
  - intros H. destruct run as [|text]; [done|]. simpl.
    specialize (H text eq_refl).
    destruct (first_network (Re.finditer text)) as [r|] eqn:Hr; [|done].
    apply first_network_qualifying in Hr.
    apply existsb_exists in Hr as (pair & Hin & Hq).
    eapply forallb_forall in H; [|exact Hin]. by rewrite Hq in H.
  - intros Hadmin Hwin Hnone. unfold Scanner.main, is_admin, call.
    rewrite Hadmin, Hwin, Hnone. reflexivity.
Qed.

Lemma resolver_range_not_found_witness :
  get_local_network_range_windows (IpconfigOutput ipconfig_link_local_only) = None.
Proof.
  apply (proj1 (resolver_range_not_found
                  (IpconfigOutput ipconfig_link_local_only)
                  quiet_world Dashboard.init)).
  intros text [= <-]. reflexivity.
Defined.

(** A resolved range is never the empty string. *)
Lemma resolved_range_not_empty run r :
  get_local_network_range_windows run = Some r -> truthy r = true.
Proof.
  destruct run as [|text]; [done|]. simpl.
  induction (Re.finditer text) as [|[ip mask] rest IH]; [done|].
  cbn [first_network]. destruct (_ && _); [|done].
  unfold Ipaddress.interface_network.
  destruct (Ipaddress.ip_int_from_string ip); [|done]. cbn [mbind option_bind].
  destruct (Ipaddress.make_netmask mask); [|done]. cbn [mbind option_bind].
  intros [= <-]. unfold Ipaddress.cidr, Ipaddress.str_of_ip.
  by destruct (pretty _).
Qed.

(** The scan ends at the first pair that is not skipped: when
    [ipaddress] cannot read that pair, a later good pair is not looked
    at and no range is returned. *)
Theorem unreadable_pair_ends_scan
    (text : string) (skipped later : list (string * string)) (ip mask : string) :
  Re.finditer text = skipped ++ (ip, mask) :: later ->
  forallb (fun pair => startswith "169.254" pair.1) skipped = true ->
  startswith "169.254" ip = false ->
  Ipaddress.interface_network ip mask = None ->
  get_local_network_range_windows (IpconfigOutput text) = None.
Proof.
  intros Hfind Hskip Hip Hnone. simpl.
  pose proof (finditer_from_truthy 0 text) as Ht. unfold Re.finditer in *.
  rewrite Hfind in *. apply Forall_app in Ht as [_ Ht].
  apply Forall_cons in Ht as [[Hi Hm] _]. simpl in Hi, Hm.
  rewrite first_network_skip by done. cbn [first_network].
  by rewrite Hi, Hm, Hip, Hnone.
Qed.

Lemma unreadable_pair_ends_scan_witness :
  get_local_network_range_windows (IpconfigOutput ipconfig_unreadable_first)
  = None.
Proof.
  exact (unreadable_pair_ends_scan ipconfig_unreadable_first []
           [("192.168.1.42", "255.255.255.0")%string]
           "10.0.0.300" "255.255.255.0" eq_refl eq_refl eq_refl eq_refl).
Defined.

(** [ipaddress] also reads a mask written as a host mask. *)
Lemma hostmask_accepted :
  Ipaddress.interface_network "192.168.1.42" "0.0.0.255"
  = Some "192.168.1.0/24"%string
  /\ Ipaddress.interface_network "192.168.1.42" "255.0.255.0" = None.
Proof. split; reflexivity. Qed.

(** ** The link-layer prober *)

Lemma collect_clients_from acc answered_list :
  fold_left
    (fun clients_list element =>
       clients_list ++ [Client (psrc element.2) (hwsrc element.2) None])
    answered_list acc
  = acc ++ (client_of <$> answered_list).
Proof.
  revert acc. induction answered_list as [|el rest IH]; intros acc; simpl.
  - by rewrite app_nil_r.
  - rewrite IH. by rewrite <- app_assoc.
Qed.

Lemma collect_clients_map answered_list :
  collect_clients answered_list = client_of <$> answered_list.
Proof. apply collect_clients_from. Qed.

Lemma NoDup_fmap_elem {A B} (f : A -> B) (l : list A) x y :
  NoDup (f <$> l) -> x ∈ l -> y ∈ l -> f x = f y -> x = y.
Proof.
  induction l as [|z l IH]; [by intros _ ?%elem_of_nil|].
  rewrite fmap_cons, NoDup_cons.
  intros [Hz Hl] [->|Hx]%elem_of_cons [->|Hy]%elem_of_cons Hf; [done|..].
  - exfalso. apply Hz. rewrite Hf. by apply list_elem_of_fmap_2.
  - exfalso. apply Hz. rewrite <- Hf. by apply list_elem_of_fmap_2.
  - by apply IH.
Qed.

Lemma match_pending_some r pending q pending' :
  match_pending r pending = Some (q, pending') ->
  exists before after,
    pending = before ++ q :: after /\ pending' = before ++ after
    /\ pdst q = psrc r /\ Forall (fun q' => pdst q' <> psrc r) before.
Proof.
  revert q pending'. induction pending as [|q0 rest IH]; intros q pending'; [done|].
  cbn [match_pending]. unfold answers.
  destruct (String.eqb_spec (psrc r) (pdst q0)) as [Heq|Hne].
  - intros [= <- <-]. by exists [], rest.
  - destruct (match_pending r rest) as [[found rest']|]; [|done].
    cbn [mbind option_bind]. intros [= <- <-].
    destruct (IH _ _ eq_refl) as (before & after & -> & -> & Hq & Hb).
    exists (q0 :: before), after. split_and!; try done.
    constructor; [congruence|done].
Qed.

Lemma match_pending_none r pending :
  match_pending r pending = None -> Forall (fun q => pdst q <> psrc r) pending.
Proof.
  induction pending as [|q0 rest IH]; [by constructor|].
  cbn [match_pending]. unfold answers.
  destruct (String.eqb_spec (psrc r) (pdst q0)) as [Heq|Hne]; [done|].
  destruct (match_pending r rest) as [[found rest']|]; [done|].
  intros _. constructor; [congruence|by apply IH].
Qed.

(** An answered pair is a request with the first received packet that
    carries the request's target address as its source address. *)
Lemma sndrcv_spec pending received el :
  NoDup (pdst <$> pending) ->
  el ∈ sndrcv pending received <->
  exists before after,
    received = before ++ el.2 :: after
    /\ Forall (fun r => psrc r <> psrc el.2) before
    /\ el.1 ∈ pending /\ pdst el.1 = psrc el.2.
Proof.
  revert pending. induction received as [|r later IH]; intros pending Hnd.
  { cbn [sndrcv]. split; [by intros ?%elem_of_nil|].
    intros (before & after & H & _). by destruct before. }
  cbn [sndrcv].
  destruct (match_pending r pending) as [[q pending']|] eqn:Hm.
  - apply match_pending_some in Hm as (qb & qa & -> & -> & Hq & Hqb).
    assert (NoDup (pdst <$> qb ++ qa)) as Hnd'.
    { rewrite fmap_app, fmap_cons in Hnd. apply NoDup_app in Hnd as (H1 & H2 & H3).
      apply NoDup_cons in H3 as [_ H3]. rewrite fmap_app. apply NoDup_app.
      split_and!; [done| |done]. intros x Hx Hin. apply (H2 x Hx). by right. }
    assert (psrc r ∉ (pdst <$> qb ++ qa)) as Hfresh.
    { rewrite fmap_app, fmap_cons in Hnd. apply NoDup_app in Hnd as (H1 & H2 & H3).
      apply NoDup_cons in H3 as [H3 _]. rewrite fmap_app, elem_of_app, <- Hq.
      intros [Hin|Hin]; [|done]. apply (H2 _ Hin). by left. }
    rewrite elem_of_cons, (IH _ Hnd'). split.
    + intros [->|(before & after & -> & Hb & Hin & Hel)].
      * exists [], later. split_and!; try done.
        apply elem_of_app. right. by left.
      * exists (r :: before), after. split_and!; try done.
        -- constructor; [|done]. intros Heq. apply Hfresh.
           rewrite Heq, <- Hel. by apply list_elem_of_fmap_2.
        -- apply elem_of_app in Hin as [?|?]; apply elem_of_app; [by left|].
           right. by right.
    + intros (before & after & Hrec & Hb & Hin & Hel).
      destruct el as [q' r']. cbn [fst snd] in *.
      destruct before as [|r0 before]; injection Hrec as Hr Hl; subst.
      * left. f_equal.
        apply (NoDup_fmap_elem pdst (qb ++ q :: qa)); [done|done| |congruence].
        apply elem_of_app. right. by left.
      * right. apply Forall_cons in Hb as [Hr0 Hb].
        exists before, after. split_and!; try done.
        apply elem_of_app in Hin as [?|[Heq|?]%elem_of_cons]; apply elem_of_app;
          [by left| |by right].
        exfalso. apply Hr0. congruence.
  - apply match_pending_none in Hm. rewrite (IH _ Hnd). split.
    + intros (before & after & -> & Hb & Hin & Hel).
      exists (r :: before), after. split_and!; try done.
      constructor; [|done]. rewrite <- Hel.
      eapply Forall_forall in Hm; [|exact Hin]. congruence.
    + intros (before & after & Hrec & Hb & Hin & Hel).
      destruct el as [q' r']. cbn [fst snd] in *.
      destruct before as [|r0 before]; injection Hrec as Hr Hl; subst.
      * eapply Forall_forall in Hm; [|exact Hin]. congruence.
      * apply Forall_cons in Hb as [_ Hb]. by exists before, after.
Qed.

Lemma sndrcv_NoDup pending received :
  NoDup (pdst <$> pending) -> NoDup (psrc ∘ snd <$> sndrcv pending received).
Proof.
  revert pending. induction received as [|r later IH]; intros pending Hnd.
  { constructor. }
  cbn [sndrcv].
  destruct (match_pending r pending) as [[q pending']|] eqn:Hm; [|by apply IH].
  apply match_pending_some in Hm as (qb & qa & -> & -> & Hq & Hqb).
  assert (NoDup (pdst <$> qb ++ qa) /\ psrc r ∉ (pdst <$> qb ++ qa)) as [Hnd' Hfresh].
  { rewrite fmap_app, fmap_cons in Hnd. apply NoDup_app in Hnd as (H1 & H2 & H3).
    apply NoDup_cons in H3 as [H3 H4]. rewrite fmap_app. split.
    - apply NoDup_app. split_and!; [done| |done].
      intros x Hx Hin. apply (H2 x Hx). by right.
    - rewrite elem_of_app, <- Hq. intros [Hin|Hin]; [|done].
      apply (H2 _ Hin). by left. }
  rewrite fmap_cons. apply NoDup_cons. split; [|by apply IH].
  intros (el & Heq & Hin)%list_elem_of_fmap. cbn [compose snd] in Heq.
  apply (sndrcv_spec _ _ _ Hnd') in Hin as (_ & _ & _ & _ & Hin & Hel).
  apply Hfresh. rewrite Heq, <- Hel. by apply list_elem_of_fmap_2.
Qed.

(** C2, as stated, fails in its last part: of two replies that carry
    one address the first is the one whose entry is kept, not the last
    (which finds the request answered already and is left out). *)
Lemma prober_keeps_first_reply :
  scan_wifi_network (SrpAnswered (sndrcv two_requests duplicate_replies))
  = [Client "192.168.1.7" "aa:aa:aa:aa:aa:aa" None;
     Client "192.168.1.1" "aa:bb:cc:dd:ee:ff" None]%string
  /\ last duplicate_replies
     = Some (ArpPacket "192.168.1.7" "bb:bb:bb:bb:bb:bb" "192.168.1.42")%string.
Proof. split; reflexivity. Qed.

(** C2, amended: whatever arrives within the window, the prober's result
    has at most one entry per responding address, and for an address
    that several replies carry the entry is that of the first of them.
    The entries are those of the addresses that were asked for and
    answered, each with the source address and the hardware address of
    its reply.  The prober itself adds one entry per answered pair of
    the transport, in the transport's order, and merges nothing; when
    the transport raises, the result is the empty list. *)
Theorem prober_one_entry_per_answer
    (requests received : list arp_packet)
    (answered_list : list (arp_packet * arp_packet)) :
  NoDup (pdst <$> requests) ->
  NoDup (c_ip <$> scan_wifi_network (SrpAnswered (sndrcv requests received)))
  /\ (forall c,
        c ∈ scan_wifi_network (SrpAnswered (sndrcv requests received)) <->
        exists before r after,
          received = before ++ r :: after
          /\ Forall (fun r' => psrc r' <> psrc r) before
          /\ psrc r ∈ (pdst <$> requests)
          /\ c = Client (psrc r) (hwsrc r) None)
  /\ scan_wifi_network (SrpAnswered answered_list) = client_of <$> answered_list
  /\ scan_wifi_network SrpRaised = [].
Proof.
  intros Hnd. cbn [scan_wifi_network]. rewrite !collect_clients_map.
  split; [|split; [|done]].
  - rewrite <- list_fmap_compose. by apply sndrcv_NoDup.
  - intros c. rewrite list_elem_of_fmap. split.
    + intros (el & -> & (before & after & Hrec & Hb & Hin & Hel)%sndrcv_spec);
        [|done].
      exists before, el.2, after. split_and!; try done.
      rewrite <- Hel. by apply list_elem_of_fmap_2.
    + intros (before & r & after & Hrec & Hb & (q & Hq & Hin)%list_elem_of_fmap & ->).
      exists (q, r). split; [done|]. apply sndrcv_spec; [done|].
      by exists before, after.
Qed.

Lemma prober_one_entry_per_answer_witness :
  NoDup (c_ip <$> scan_wifi_network
                    (SrpAnswered (sndrcv two_requests duplicate_replies)))
  /\ (forall c,
        c ∈ scan_wifi_network (SrpAnswered (sndrcv two_requests duplicate_replies)) <->
        exists before r after,
          duplicate_replies = before ++ r :: after
          /\ Forall (fun r' => psrc r' <> psrc r) before
          /\ psrc r ∈ (pdst <$> two_requests)
          /\ c = Client (psrc r) (hwsrc r) None)
  /\ scan_wifi_network (SrpAnswered []) = client_of <$> []
  /\ scan_wifi_network SrpRaised = [].
Proof.
  apply (prober_one_entry_per_answer two_requests duplicate_replies []).
  apply (bool_decide_unpack _). by vm_compute.
Defined.

(** ** The name resolver *)

Lemma scanner_enrich_from g i clients :
  Scanner.enrich_from g i clients = imap (fun j => annotate g (i + j)) clients.
Proof.
  revert i. induction clients as [|c rest IH]; intros i; simpl; [done|].
  rewrite IH. f_equal.
  - unfold annotate. rewrite Nat.add_0_r.
    by destruct (g i (c_ip c)).
  - apply imap_ext. intros j x _. simpl. f_equal. lia.
Qed.

Lemma dashboard_enrich_from g i clients :
  Dashboard.enrich_from g i clients = imap (fun j => annotate g (i + j)) clients.
Proof.
  revert i. induction clients as [|c rest IH]; intros i; simpl; [done|].
  rewrite IH. f_equal.
  - unfold annotate. rewrite Nat.add_0_r.
    by destruct (g i (c_ip c)).
  - apply imap_ext. intros j x _. simpl. f_equal. lia.
Qed.

Lemma scanner_enrich g clients :
  Scanner.enrich_wifi_devices_with_hostname g clients = imap (annotate g) clients.
Proof.
  unfold Scanner.enrich_wifi_devices_with_hostname.
  destruct clients; [done|]. by rewrite scanner_enrich_from.
Qed.

Lemma dashboard_enrich g clients :
  Dashboard.enrich_wifi_devices_with_hostname g clients = imap (annotate g) clients.
Proof.
  unfold Dashboard.enrich_wifi_devices_with_hostname.
  destruct clients; [done|]. by rewrite dashboard_enrich_from.
Qed.

Lemma enrich_same g clients :
  Dashboard.enrich_wifi_devices_with_hostname g clients
  = Scanner.enrich_wifi_devices_with_hostname g clients.
Proof. by rewrite scanner_enrich, dashboard_enrich. Qed.

(** The helper [get_device_hostname] would record ["Error"] for a lookup
    that ends in an exception other than [socket.herror]; no code calls
    it, so no run does so. *)
Lemma helper_records_Error :
  Scanner.get_device_hostname OtherError "10.0.0.2" ∅ !! "10.0.0.2"%string
  = Some "Error"%string
  /\ Scanner.get_device_hostname Timeout "10.0.0.2" ∅ !! "10.0.0.2"%string
     = Some "Error"%string.
Proof. split; reflexivity. Qed.

(** C3: in the enrichment step of either program a host whose lookup
    fails, whatever the failure (name not found, timeout, any other
    exception), gets exactly ["N/A"] as its name, with its address and
    hardware address as they were; the only other name a host can get
    is the whole name a successful lookup returned for it. *)
Theorem failed_lookup_annotation
    (g : resolver) (clients : list client) (i : nat) (c : client) :
  clients !! i = Some c ->
  (lookup_failed (g i (c_ip c)) = true ->
     Scanner.enrich_wifi_devices_with_hostname g clients !! i
       = Some (Client (c_ip c) (c_mac c) (Some "N/A"%string))
     /\ Dashboard.enrich_wifi_devices_with_hostname g clients !! i
       = Some (Client (c_ip c) (c_mac c) (Some "N/A"%string)))
  /\ (forall name,
        c_name <$> Scanner.enrich_wifi_devices_with_hostname g clients !! i
          = Some (Some name)
        \/ c_name <$> Dashboard.enrich_wifi_devices_with_hostname g clients !! i
          = Some (Some name) ->
        name = "N/A"%string /\ lookup_failed (g i (c_ip c)) = true
        \/ g i (c_ip c) = Hostname name).
Proof.
  intros Hc. rewrite scanner_enrich, dashboard_enrich.
  rewrite list_lookup_imap, Hc. simpl. unfold annotate. split.
  - by destruct (g i (c_ip c)).
  - intros name. destruct (g i (c_ip c)); simpl; intros [[= <-]|[= <-]]; auto.
Qed.

Lemma failed_lookup_annotation_witness :
  Scanner.enrich_wifi_devices_with_hostname router_only two_clients !! 1%nat
    = Some (Client "10.0.0.2" "11:22:33:44:55:66" (Some "N/A"%string))
  /\ Dashboard.enrich_wifi_devices_with_hostname router_only two_clients !! 1%nat
    = Some (Client "10.0.0.2" "11:22:33:44:55:66" (Some "N/A"%string)).
Proof.
  exact (proj1 (failed_lookup_annotation router_only two_clients 1
                  (Client "10.0.0.2" "11:22:33:44:55:66" None) eq_refl)
           eq_refl).
Defined.

(** C10: the enrichment step of either program returns the hosts it was
    given, as many and in the same order, each with its address and its
    hardware address unchanged and with its name set, to the name the
    lookup returned or to ["N/A"]; the empty list gives the empty list. *)
Theorem enrichment_frame (g : resolver) (clients : list client) :
  let enriched := Scanner.enrich_wifi_devices_with_hostname g clients in
  Dashboard.enrich_wifi_devices_with_hostname g clients = enriched
  /\ length enriched = length clients
  /\ c_ip <$> enriched = c_ip <$> clients
  /\ c_mac <$> enriched = c_mac <$> clients
  /\ (forall i c, clients !! i = Some c ->
        enriched !! i
        = Some (Client (c_ip c) (c_mac c) (Some (annotation (g i (c_ip c))))))
  /\ (forall i c, enriched !! i = Some c ->
        c_name c = Some "N/A"%string
        \/ exists hostname, g i (c_ip c) = Hostname hostname /\ c_name c = Some hostname)
  /\ Scanner.enrich_wifi_devices_with_hostname g [] = []
  /\ Dashboard.enrich_wifi_devices_with_hostname g [] = [].
Proof.
  intros enriched. subst enriched. rewrite enrich_same, scanner_enrich.
  split; [done|]. split; [by rewrite length_imap|].
  split.
  { apply list_eq. intros i. rewrite !list_lookup_fmap, list_lookup_imap.
    by destruct (clients !! i). }
  split.
  { apply list_eq. intros i. rewrite !list_lookup_fmap, list_lookup_imap.
    by destruct (clients !! i). }
  split.
  { intros i c Hc. by rewrite list_lookup_imap, Hc. }
  split; [|done].
  intros i c. rewrite list_lookup_imap.
  destruct (clients !! i) as [c0|]; [|done]. intros [= <-]. simpl.
  destruct (g i (c_ip c0)) eqn:E; eauto.
Qed.

(** ** The short-range scanner *)

Lemma usable_name_unusable d :
  usable_name d = if decide (unusable d) then None else name d.
Proof.
  destruct (decide (unusable d)) as [Hu|Hu]; unfold usable_name, unusable, truthy in *.
  - destruct Hu as [-> | [-> | ->]]; reflexivity.
  - destruct (name d) as [n|]; [|done].
    destruct (String.eqb_spec n ""), (String.eqb_spec n "Unknown"); subst;
      simpl; naive_solver.
Qed.

Lemma collect_devices_from acc discovered :
  fold_left
    (fun devices_list d =>
       match usable_name d with
       | Some n => devices_list ++ [Device n (address d)]
       | None => devices_list
       end)
    discovered acc
  = acc ++ (device_of <$> filter (fun d => ~ unusable d) discovered).
Proof.
  revert acc. induction discovered as [|d rest IH]; intros acc; simpl.
  - by rewrite app_nil_r.
  - rewrite IH, usable_name_unusable. rewrite filter_cons.
    destruct (decide (unusable d)) as [Hu|Hu].
    + by rewrite decide_False by tauto.
    + rewrite decide_True by done. rewrite fmap_cons.
      destruct (name d) as [n|] eqn:E.
      * rewrite <- app_assoc. simpl. do 2 f_equal.
        unfold device_of. by rewrite E.
      * exfalso. apply Hu. by left.
Qed.

(** C6: the scanner's result holds an entry exactly for the
    advertisements with a usable name, in the order they were heard: one
    with no name, the empty name or the name ["Unknown"] gives no entry,
    every other one gives the entry of its name and link address. *)
Theorem named_advertisements_only (discovered : list BLEDevice) :
  scan_bluetooth_devices (Discovered discovered)
  = Returned (device_of <$> filter (fun d => ~ unusable d) discovered)
  /\ (forall x, x ∈ collect_devices discovered <->
        exists d n, d ∈ discovered /\ name d = Some n /\ n <> ""%string
                    /\ n <> "Unknown"%string /\ x = Device n (address d)).
Proof.
  unfold scan_bluetooth_devices, collect_devices.
  rewrite collect_devices_from. simpl. split; [done|].
  intros x. rewrite list_elem_of_fmap. split.
  - intros (d & -> & [Hu Hd]%list_elem_of_filter).
    unfold unusable in Hu. unfold device_of.
    destruct (name d) as [n|] eqn:E; [|tauto].
    exists d, n. split_and!; [done|done|naive_solver|naive_solver|done].
  - intros (d & n & Hd & Hn & H1 & H2 & ->). exists d. split.
    + unfold device_of. by rewrite Hn.
    + apply list_elem_of_filter. split; [|done].
      unfold unusable. rewrite Hn. intros [?|[[= ?]|[= ?]]]; done.
Qed.

(** The placeholder is compared as it is written: ["unknown"] is a name. *)
Lemma collect_devices_heard :
  collect_devices heard
  = [Device "Speaker" "00:11:22:33:44:55"; Device "unknown" "00:11:22:33:44:59"]%string.
Proof. reflexivity. Qed.

(** An exception of [discover] that is not a [BleakError] is not caught:
    it ends the terminal program and the dashboard's script. *)
Theorem other_discover_error_escapes (w : world) (a : Dashboard.app) :
  default false (admin_probe w) = true ->
  platform_windows w = true ->
  is_Some (get_local_network_range_windows (ipconfig w)) ->
  is_Some (used_range w a) ->
  value (Scanner.main (with_discover DiscoverOtherError w)) = Crashed
  /\ (value (Dashboard.start_scan (with_discover DiscoverOtherError w) a)).1
     = Dashboard.ScriptError.
Proof.
  destruct w as [pw ap ic sr g d t], a as [h n s wr br rc].
  unfold used_range, fresh_entry. simpl.
  intros Hadmin -> [r Hr] [r' Hr'].
  unfold Scanner.main, Dashboard.start_scan, is_admin, call, calls,
    Dashboard.get_local_network_range_windows_cached. simpl.
  rewrite Hadmin, Hr. simpl. split; [done|].
  destruct rc as [[stored cached]|]; [destruct (t <? stored + Dashboard.ttl)|];
    simpl in *; simplify_eq; by destruct (scan_wifi_network _).
Qed.

Lemma other_discover_error_escapes_witness :
  value (Scanner.main (with_discover DiscoverOtherError quiet_world)) = Crashed
  /\ (value (Dashboard.start_scan (with_discover DiscoverOtherError quiet_world)
               Dashboard.init)).1
     = Dashboard.ScriptError.
Proof.
  apply (other_discover_error_escapes quiet_world Dashboard.init);
    [reflexivity | reflexivity | by eexists | by eexists].
Defined.

(** ** The privilege gate *)

Lemma admin_not_in_lookups (l : list client) :
  EvIsAdmin ∉ (EvGethostbyaddr ∘ c_ip <$> l).
Proof. intros (c & ? & _)%list_elem_of_fmap. done. Qed.

Local Ltac no_admin :=
  repeat first
    [ apply not_elem_of_nil
    | apply admin_not_in_lookups
    | apply not_elem_of_cons; split; [discriminate|]
    | apply not_elem_of_app; split ].

Local Ltac gate_shape :=
  eexists; split; [reflexivity|]; split; [no_admin|done].

(** C9: in a run of either program the privilege query is the first
    call made, before the range is looked up and before any frame is
    sent, and it is made once; when it says no (or cannot be made) it
    is the only call of the run: the terminal program exits with
    status 1 and the dashboard stops its script with the session back
    at "not scanned", nothing having been probed, resolved or scanned. *)
Theorem privilege_gate_first (w : world) (a : Dashboard.app) :
  (exists rest,
      trace (Scanner.main w) = EvIsAdmin :: rest /\ (EvIsAdmin ∉ rest)
      /\ (default false (admin_probe w) = false ->
            rest = [] /\ value (Scanner.main w) = Exit 1))
  /\ (exists rest,
      trace (Dashboard.start_scan w a) = EvIsAdmin :: rest /\ (EvIsAdmin ∉ rest)
      /\ (default false (admin_probe w) = false ->
            rest = []
            /\ value (Dashboard.start_scan w a)
               = (Dashboard.Stopped, Dashboard.set_scan_run false a))).
Proof.
  destruct w as [pw ap ic sr g d t].
  unfold Scanner.main, Dashboard.start_scan, is_admin, call, calls,
    Dashboard.get_local_network_range_windows_cached; simpl.
  split.
  - destruct (default false ap); simpl.
    + destruct pw; simpl.
      * destruct (get_local_network_range_windows ic) as [r|]; simpl.
        -- destruct (scan_bluetooth_devices d); simpl;
             [destruct (display_wifi_results _); simpl|];
             gate_shape.
        -- gate_shape.
      * gate_shape.
    + gate_shape.
  - destruct (default false ap); simpl.
    + destruct (Dashboard.range_cache a) as [[stored cached]|]; simpl.
      * destruct (t <? stored + Dashboard.ttl); simpl.
        -- destruct cached as [r|]; simpl.
           ++ destruct (scan_wifi_network (sr r)), (scan_bluetooth_devices d); simpl;
                gate_shape.
           ++ gate_shape.
        -- destruct (get_local_network_range_windows ic) as [r|]; simpl.
           ++ destruct (scan_wifi_network (sr r)), (scan_bluetooth_devices d); simpl;
                gate_shape.
           ++ gate_shape.
      * destruct (get_local_network_range_windows ic) as [r|]; simpl.
        -- destruct (scan_wifi_network (sr r)), (scan_bluetooth_devices d); simpl;
             gate_shape.
        -- gate_shape.
    + gate_shape.
Qed.

Lemma privilege_gate_first_witness :
  trace (Scanner.main (unprivileged quiet_world)) = [EvIsAdmin]
  /\ value (Scanner.main (unprivileged quiet_world)) = Exit 1
  /\ trace (Dashboard.start_scan (unprivileged quiet_world) Dashboard.init) = [EvIsAdmin]
  /\ (value (Dashboard.start_scan (unprivileged quiet_world) Dashboard.init)).1
     = Dashboard.Stopped.
Proof.
  destruct (privilege_gate_first (unprivileged quiet_world) Dashboard.init)
    as [(rest & Ht & _ & Hno) (rest' & Ht' & _ & Hno')].
  destruct (Hno eq_refl) as [-> Hv]. destruct (Hno' eq_refl) as [-> Hv'].
  rewrite Ht, Ht', Hv, Hv'. done.
Defined.

(** ** Sorting *)

Section sorting.
Context {A : Type} (le : A -> A -> bool).
Hypothesis le_total : forall x y, le x y = true \/ le y x = true.
Hypothesis le_trans : forall x y z, le x y = true -> le y z = true -> le x z = true.

Lemma insert_by_perm x l : insert_by le x l ≡ₚ x :: l.
Proof.
  induction l as [|y l IH]; simpl; [done|].
  destruct (le x y); [done|]. rewrite IH. apply Permutation_swap.
Qed.

Lemma sorted_perm l : sorted le l ≡ₚ l.
Proof.
  induction l as [|x l IH]; simpl; [done|].
  by rewrite insert_by_perm, IH.
Qed.

Lemma insert_by_sorted x l :
  StronglySorted (fun x y => le x y = true) l ->
  StronglySorted (fun x y => le x y = true) (insert_by le x l).
Proof.
  induction 1 as [|y l Hl IH Hy]; simpl.
  - by repeat constructor.
  - destruct (le x y) eqn:E.
    + constructor; [by constructor|].
      constructor; [done|].
      eapply Forall_impl; [exact Hy|]. intros z Hz. by eapply le_trans.
    + constructor; [done|].
      rewrite insert_by_perm. constructor; [|done].
      destruct (le_total x y) as [E'|E']; [congruence|done].
Qed.

Lemma sorted_sorted l : StronglySorted (fun x y => le x y = true) (sorted le l).
Proof.
  induction l as [|x l IH]; simpl; [constructor|].
  by apply insert_by_sorted.
Qed.
(** The sort is stable: elements that compare equal keep their order. *)
Lemma insert_by_stable z x l :
  filter (fun y => le z y = true /\ le y z = true) (insert_by le x l)
  = filter (fun y => le z y = true /\ le y z = true) (x :: l).
Proof.
  induction l as [|y l IH]; simpl; [done|].
  destruct (le x y) eqn:E; [done|].
  rewrite (filter_cons _ y), IH, !(filter_cons _ x), !(filter_cons _ y).
  repeat case_decide; try done.
  destruct_and!. assert (le x y = true) by eauto. congruence.
Qed.

Lemma sorted_stable z l :
  filter (fun y => le z y = true /\ le y z = true) (sorted le l)
  = filter (fun y => le z y = true /\ le y z = true) l.
Proof.
  induction l as [|x l IH]; simpl; [done|].
  by rewrite insert_by_stable, !filter_cons, IH.
Qed.
End sorting.

Lemma keyed_clients clients keyed :
  mapM (fun x => k ← ip_address (c_ip x); Some (k, x)) clients = Some keyed ->
  keyed.*2 = clients
  /\ Forall (fun kx => ip_address (c_ip kx.2) = Some kx.1) keyed.
Proof.
  rewrite mapM_Some. induction 1 as [|x [k x'] l l' H _ [IH1 IH2]]; [done|].
  destruct (ip_address (c_ip x)) as [k0|] eqn:E; simplify_eq/=.
  split; [by f_equal|]. constructor; done.
Qed.

Lemma mapM_readable clients :
  Forall readable clients <->
  is_Some (mapM (fun x => k ← ip_address (c_ip x); Some (k, x)) clients).
Proof.
  rewrite mapM_is_Some. unfold readable.
  split; intros H; (eapply Forall_impl; [exact H|]); intros c; simpl;
    destruct (ip_address (c_ip c)); simpl; intros [? ?]; simplify_eq; by eexists.
Qed.

Lemma valid_address_ip c :
  valid_address c <-> exists a, ip_address (c_ip c) = Some (IPv4Address a).
Proof.
  unfold valid_address, ip_address.
  destruct (Ipaddress.ipv4_address (c_ip c)) as [a|]; split.
  - intros _. by exists a.
  - intros _. by eexists.
  - by intros [? ?].
  - intros [a Ha]. by destruct (Ipaddress.ipv6_address (c_ip c)).
Qed.

Lemma valid_one_version clients : Forall valid_address clients -> one_version clients.
Proof.
  intros H. exists 4. eapply Forall_impl; [exact H|].
  intros c Hc. apply valid_address_ip in Hc as [a Ha]. by rewrite Ha.
Qed.

Lemma one_version_readable clients : one_version clients -> Forall readable clients.
Proof.
  intros [v H]. eapply Forall_impl; [exact H|].
  intros c Hc. unfold readable. cbn beta in Hc.
  destruct (ip_address (c_ip c)); [by eexists|discriminate Hc].
Qed.

(** *** The sort whose comparison can raise *)

Lemma address_lt_version (a b : IPAddress) :
  address_lt a b
  = if decide (version a = version b)
    then Some (negb (address_int b <=? address_int a)) else None.
Proof. destruct a, b; simpl; try done; by rewrite Z.leb_antisym, negb_involutive. Qed.

Lemma insert_lt_one_version {B} (v : Z) (x : IPAddress * B) (l : list (IPAddress * B)) :
  version x.1 = v -> Forall (fun y => version y.1 = v) l ->
  insert_lt (fun a b => address_lt a.1 b.1) x l
  = Some (insert_by (fun a b => address_int a.1 <=? address_int b.1) x l).
Proof.
  intros Hx. induction 1 as [|y l Hy Hl IH]; [done|].
  cbn [insert_lt insert_by]. rewrite address_lt_version.
  rewrite decide_True by congruence. cbn [mbind option_bind].
  destruct (address_int x.1 <=? address_int y.1); simpl; [done|].
  by rewrite IH.
Qed.

Lemma sorted_cons {A} (le : A -> A -> bool) x l :
  sorted le (x :: l) = insert_by le x (sorted le l).
Proof. done. Qed.

Lemma sorted_lt_cons {A} (lt : A -> A -> option bool) x l :
  sorted_lt lt (x :: l) = sorted_lt lt l ≫= insert_lt lt x.
Proof. done. Qed.

Lemma sorted_lt_one_version {B} (v : Z) (l : list (IPAddress * B)) :
  Forall (fun y => version y.1 = v) l ->
  sorted_lt (fun a b => address_lt a.1 b.1) l
  = Some (sorted (fun a b => address_int a.1 <=? address_int b.1) l).
Proof.
  induction 1 as [|x l Hx Hl IH]; [done|].
  rewrite sorted_lt_cons, IH, sorted_cons. cbn [mbind option_bind].
  apply (insert_lt_one_version v); [done|]. by rewrite sorted_perm.
Qed.

(** It raises exactly when two keys are of different versions. *)
Lemma sorted_lt_cases {B} (l : list (IPAddress * B)) :
  sorted_lt (fun a b => address_lt a.1 b.1) l = None
  \/ exists v, Forall (fun y => version y.1 = v) l.
Proof.
  induction l as [|x l [IH|[v IH]]].
  - right. by exists 4.
  - left. by rewrite sorted_lt_cons, IH.
  - destruct l as [|y l].
    { right. exists (version x.1). by repeat constructor. }
    destruct (decide (version x.1 = v)) as [Hx|Hx].
    { right. exists v. by constructor. }
    left. rewrite sorted_lt_cons, (sorted_lt_one_version v _ IH).
    cbn [mbind option_bind].
    set (s := sorted _ (y :: l)).
    assert (s ≡ₚ y :: l) as Hp by apply sorted_perm.
    assert (Forall (fun y => version y.1 = v) s) as Hv by (by rewrite Hp).
    destruct s as [|z s]; [by apply Permutation_nil_cons in Hp|].
    apply Forall_cons in Hv as [Hz _].
    cbn [insert_lt]. rewrite address_lt_version.
    by rewrite decide_False by congruence.
Qed.

(** *** The sort of the first table *)

Lemma sort_clients_one_version clients :
  one_version clients ->
  exists sorted_clients,
    sort_clients clients = Returned sorted_clients
    /\ StronglySorted address_le sorted_clients
    /\ sorted_clients ≡ₚ clients.
Proof.
  intros [v Hv].
  destruct (proj1 (mapM_readable clients) (one_version_readable _ (ex_intro _ v Hv)))
    as [keyed Hk].
  unfold sort_clients. rewrite Hk.
  destruct (keyed_clients _ _ Hk) as [<- Hkeys].
  assert (Forall (fun kx : IPAddress * client => version kx.1 = v) keyed) as Hkv.
  { apply Forall_fmap in Hv. apply Forall_forall. intros kx Hin.
    eapply Forall_forall in Hv; [|exact Hin]. eapply Forall_forall in Hkeys; [|exact Hin].
    simpl in Hv. rewrite Hkeys in Hv. by injection Hv. }
  rewrite (sorted_lt_one_version v _ Hkv). eexists. split; [done|].
  split; [|by rewrite sorted_perm].
  set (le := fun a b : IPAddress * client => address_int a.1 <=? address_int b.1).
  assert (Forall (fun kx => ip_address (c_ip kx.2) = Some kx.1 /\ version kx.1 = v)
            (sorted le keyed)) as Hkeys'.
  { rewrite sorted_perm. apply Forall_and. done. }
  assert (StronglySorted (fun a b => le a b = true) (sorted le keyed)) as Hs.
  { apply sorted_sorted; subst le; simpl.
    - intros x y. rewrite !Z.leb_le. lia.
    - intros x y z. rewrite !Z.leb_le. lia. }
  induction Hs as [|kx l Hl IH Hx]; simpl; [constructor|].
  apply Forall_cons in Hkeys' as [[Hkx Hvx] Hrest].
  constructor; [by apply IH|].
  apply Forall_fmap. apply Forall_forall. intros ky Hin. simpl.
  eapply Forall_forall in Hrest as [Hky Hvy]; [|exact Hin].
  exists kx.1, ky.1. split_and!; [done|done|congruence|].
  eapply Forall_forall in Hx; [|done]. by apply Z.leb_le.
Qed.

Lemma sort_clients_valid clients :
  Forall valid_address clients ->
  exists sorted_clients,
    sort_clients clients = Returned sorted_clients
    /\ StronglySorted address_le sorted_clients
    /\ sorted_clients ≡ₚ clients.
Proof. intros H. by apply sort_clients_one_version, valid_one_version. Qed.

Lemma sort_clients_fallback clients :
  ~ Forall readable clients -> sort_clients clients = Returned clients.
Proof.
  intros H. unfold sort_clients.
  destruct (mapM _ clients) as [keyed|] eqn:Hk; [|done].
  exfalso. apply H. apply mapM_readable. by rewrite Hk.
Qed.

Lemma sort_clients_mixed clients :
  Forall readable clients -> ~ one_version clients -> sort_clients clients = Raised.
Proof.
  intros [keyed Hk]%mapM_readable Hmixed. unfold sort_clients. rewrite Hk.
  destruct (keyed_clients _ _ Hk) as [<- Hkeys].
  destruct (sorted_lt_cases keyed) as [->|[v Hv]]; [done|].
  exfalso. apply Hmixed. exists v. apply Forall_fmap, Forall_forall.
  intros kx Hin. eapply Forall_forall in Hv; [|exact Hin].
  eapply Forall_forall in Hkeys; [|exact Hin]. simpl. rewrite Hkeys. simpl.
  by f_equal.
Qed.

Lemma sort_clients_perm clients sorted_clients :
  sort_clients clients = Returned sorted_clients -> sorted_clients ≡ₚ clients.
Proof.
  unfold sort_clients. destruct (mapM _ clients) as [keyed|] eqn:Hk.
  - destruct (keyed_clients _ _ Hk) as [<- Hkeys].
    destruct (sorted_lt_cases keyed) as [->|[v Hv]]; [done|].
    rewrite (sorted_lt_one_version v _ Hv). intros [= <-]. by rewrite sorted_perm.
  - by intros [= <-].
Qed.

Lemma sort_devices_sorted devices :
  StronglySorted name_le (sort_devices devices)
  /\ sort_devices devices ≡ₚ devices.
Proof.
  unfold sort_devices. split; [|apply sorted_perm].
  apply (sorted_sorted (fun a b => String.leb (d_name a) (d_name b))).
  - intros x y. apply String.leb_total.
  - intros x y z Hxy%Is_true_true Hyz%Is_true_true. apply Is_true_true.
    by trans (d_name y).
Qed.

Lemma display_wifi_rows clients sorted_clients :
  sort_clients clients = Returned sorted_clients ->
  exists rows,
    display_wifi_results clients = Returned rows
    /\ w_ip <$> rows = c_ip <$> sorted_clients
    /\ w_mac <$> rows = c_mac <$> sorted_clients
    /\ w_index <$> rows = seq 1 (length clients).
Proof.
  intros Hs. unfold display_wifi_results. rewrite Hs. eexists. split; [done|].
  rewrite <- (Permutation_length (sort_clients_perm _ _ Hs)).
  generalize sorted_clients. intros l. split_and!.
  - apply list_eq. intros i. rewrite !list_lookup_fmap, list_lookup_imap.
    by destruct (l !! i).
  - apply list_eq. intros i. rewrite !list_lookup_fmap, list_lookup_imap.
    by destruct (l !! i).
  - apply list_eq. intros i. rewrite list_lookup_fmap, list_lookup_imap.
    destruct (l !! i) eqn:E; simpl.
    + symmetry. rewrite lookup_seq. split; [lia|].
      by eapply lookup_lt_Some.
    + symmetry. apply lookup_seq_ge. by apply lookup_ge_None.
Qed.

Lemma display_wifi_raised clients :
  sort_clients clients = Raised -> display_wifi_results clients = Raised.
Proof. intros Hs. unfold display_wifi_results. by rewrite Hs. Qed.

Lemma display_bluetooth_rows devices :
  b_mac <$> display_bluetooth_results devices = d_mac <$> sort_devices devices
  /\ b_index <$> display_bluetooth_results devices = seq 1 (length devices).
Proof.
  unfold display_bluetooth_results.
  assert (length (sort_devices devices) = length devices) as <-.
  { apply Permutation_length, sorted_perm. }
  generalize (sort_devices devices). intros l. split.
  - apply list_eq. intros i. rewrite !list_lookup_fmap, list_lookup_imap.
    by destruct (l !! i).
  - apply list_eq. intros i. rewrite list_lookup_fmap, list_lookup_imap.
    destruct (l !! i) eqn:E; simpl.
    + symmetry. rewrite lookup_seq. split; [lia|].
      by eapply lookup_lt_Some.
    + symmetry. apply lookup_seq_ge. by apply lookup_ge_None.
Qed.

(** ** The dashboard's runs *)

Local Ltac heap_lookup :=
  unfold Dashboard.wifi_table, Dashboard.bt_table, Dashboard.wifi_list,
    Dashboard.bt_list; simpl;
  repeat first [rewrite lookup_insert_eq | rewrite lookup_insert_ne by lia].

Lemma cached_lookup w a :
  Dashboard.get_local_network_range_windows_cached w a
  = match fresh_entry w a with
    | Some cached => Run [] (cached, a)
    | None =>
        Run [EvIpconfig]
          (get_local_network_range_windows (ipconfig w),
           Dashboard.set_range_cache
             (Some (now w, get_local_network_range_windows (ipconfig w))) a)
    end.
Proof.
  unfold Dashboard.get_local_network_range_windows_cached, fresh_entry.
  destruct (Dashboard.range_cache a) as [[stored cached]|]; [|done].
  by destruct (now w <? stored + Dashboard.ttl).
Qed.

(** A dashboard run that gets through: what it leaves in the session. *)
Lemma start_scan_rerun w a ip_range bluetooth_devices :
  default false (admin_probe w) = true ->
  used_range w a = Some ip_range ->
  scan_bluetooth_devices (discover w) = Returned bluetooth_devices ->
  let run := Dashboard.start_scan w a in
  let a' := (value run).2 in
  (value run).1 = Dashboard.Rerun
  /\ Dashboard.wifi_table a'
     = Dashboard.enrich_wifi_devices_with_hostname (gethostbyaddr w)
         (scan_wifi_network (srp w ip_range))
  /\ Dashboard.bt_table a' = bluetooth_devices
  /\ Dashboard.scan_run a' = true
  /\ (Dashboard.next a <= Dashboard.wifi_results a' < Dashboard.next a')%nat
  /\ (Dashboard.next a <= Dashboard.bt_results a' < Dashboard.next a')%nat
  /\ Dashboard.wifi_results a' <> Dashboard.bt_results a'
  /\ (forall r, (r < Dashboard.next a)%nat ->
        Dashboard.heap a' !! r = Dashboard.heap a !! r)
  /\ trace run
     = EvIsAdmin
         :: (if fresh_entry w a is Some _ then [] else [EvIpconfig])
         ++ EvSrp ip_range
         :: (EvGethostbyaddr ∘ c_ip <$> scan_wifi_network (srp w ip_range))
         ++ [EvDiscover].
Proof.
  destruct w as [pw ap ic sr g d t], a as [h n s wr br rc].
  unfold used_range, fresh_entry. simpl.
  intros Hadmin Hrange Hbt.
  unfold Dashboard.start_scan, is_admin, call, calls,
    Dashboard.get_local_network_range_windows_cached. simpl.
  rewrite Hadmin. simpl.
  destruct rc as [[stored cached]|]; [destruct (t <? stored + Dashboard.ttl)|];
    simpl in *; rewrite Hrange; simpl; rewrite Hbt;
    destruct (scan_wifi_network (sr ip_range)) as [|c l] eqn:Hscan; simpl.
  all: split_and!; try done; try lia; try (heap_lookup; done).
  all: try (intros r Hr; by repeat (rewrite lookup_insert_ne by lia)).
Qed.

Lemma scan_again_idle a :
  let idle := Dashboard.scan_again a in
  Dashboard.scan_run idle = false
  /\ Dashboard.wifi_table idle = []
  /\ Dashboard.bt_table idle = []
  /\ Dashboard.range_cache idle = Dashboard.range_cache a
  /\ Dashboard.wifi_results idle = Dashboard.next a
  /\ Dashboard.bt_results idle = S (Dashboard.next a)
  /\ Dashboard.next idle = S (S (Dashboard.next a))
  /\ (forall r, (r < Dashboard.next a)%nat ->
        Dashboard.heap idle !! r = Dashboard.heap a !! r).
Proof.
  destruct a as [h n s wr br rc]. simpl.
  split_and!; try done; try (heap_lookup; done).
  intros r Hr. by repeat (rewrite lookup_insert_ne by lia).
Qed.

Lemma start_scan_observe w a b :
  wf a -> wf b ->
  Dashboard.wifi_table a = Dashboard.wifi_table b ->
  Dashboard.bt_table a = Dashboard.bt_table b ->
  fresh_entry w a = fresh_entry w b ->
  observe (Dashboard.start_scan w a) = observe (Dashboard.start_scan w b).
Proof.
  intros [Ha1 Ha2] [Hb1 Hb2] Hw Hb He.
  unfold observe, Dashboard.start_scan, is_admin, call, calls.
  cbn [mbind M_bind mret M_ret trace value].
  rewrite !cached_lookup.
  assert (fresh_entry w (Dashboard.set_scan_run true a) = fresh_entry w a) as -> by done.
  assert (fresh_entry w (Dashboard.set_scan_run true b) = fresh_entry w b) as -> by done.
  rewrite <- He. clear He.
  destruct a as [h n s wr br rc], b as [h' n' s' wr' br' rc'].
  unfold Dashboard.wifi_table, Dashboard.bt_table, Dashboard.wifi_list,
    Dashboard.bt_list in *. simpl in *.
  destruct (default false (admin_probe w)); simpl; [|by rewrite Hw, Hb].
  destruct (fresh_entry w _) as [[r|]|]; simpl; try by rewrite Hw, Hb.
  - destruct (scan_wifi_network (srp w r)), (scan_bluetooth_devices (discover w));
      simpl;
      repeat first [rewrite lookup_insert_eq | rewrite lookup_insert_ne by lia];
      by rewrite ?Hb.
  - destruct (get_local_network_range_windows (ipconfig w)) as [r|]; simpl;
      [|by rewrite Hw, Hb].
    destruct (scan_wifi_network (srp w r)), (scan_bluetooth_devices (discover w));
      simpl;
      repeat first [rewrite lookup_insert_eq | rewrite lookup_insert_ne by lia];
      by rewrite ?Hb.
Qed.

Lemma init_wf : wf Dashboard.init.
Proof. split; simpl; lia. Qed.

Lemma scan_again_wf a : wf (Dashboard.scan_again a).
Proof. destruct a. split; simpl; lia. Qed.

Lemma start_scan_wf w a : wf a -> wf (value (Dashboard.start_scan w a)).2.
Proof.
  destruct a as [h n s wr br rc]. intros [H1 H2]. simpl in *.
  unfold Dashboard.start_scan, is_admin, call, calls,
    Dashboard.get_local_network_range_windows_cached. simpl.
  destruct (default false (admin_probe w)); simpl; [|done].
  destruct rc as [[stored [r|]]|]; simpl.
  - destruct (now w <? stored + Dashboard.ttl); simpl.
    + destruct (scan_wifi_network (srp w r)), (scan_bluetooth_devices (discover w));
        split; simpl; lia.
    + destruct (get_local_network_range_windows (ipconfig w)) as [r'|]; simpl; [|done].
      destruct (scan_wifi_network (srp w r')), (scan_bluetooth_devices (discover w));
        split; simpl; lia.
  - destruct (now w <? stored + Dashboard.ttl); simpl; [done|].
    destruct (get_local_network_range_windows (ipconfig w)) as [r'|]; simpl; [|done].
    destruct (scan_wifi_network (srp w r')), (scan_bluetooth_devices (discover w));
      split; simpl; lia.
  - destruct (get_local_network_range_windows (ipconfig w)) as [r'|]; simpl; [|done].
    destruct (scan_wifi_network (srp w r')), (scan_bluetooth_devices (discover w));
      split; simpl; lia.
Qed.

(** Every session the dashboard gets into is well formed. *)
Lemma reachable_wf a : reachable a -> wf a.
Proof.
  induction 1; auto using init_wf, start_scan_wf, scan_again_wf.
Qed.

Lemma start_scan_rerun_inv w a :
  (value (Dashboard.start_scan w a)).1 = Dashboard.Rerun ->
  default false (admin_probe w) = true
  /\ exists ip_range bluetooth_devices,
       used_range w a = Some ip_range
       /\ scan_bluetooth_devices (discover w) = Returned bluetooth_devices.
Proof.
  unfold Dashboard.start_scan, is_admin, call, calls.
  cbn [mbind M_bind mret M_ret trace value].
  rewrite cached_lookup. unfold used_range.
  assert (fresh_entry w (Dashboard.set_scan_run true a) = fresh_entry w a) as -> by done.
  destruct (default false (admin_probe w)); simpl; [|done].
  destruct (fresh_entry w a) as [[r|]|]; simpl; try done.
  - destruct (scan_wifi_network (srp w r)), (scan_bluetooth_devices (discover w));
      simpl; try done; eauto.
  - destruct (get_local_network_range_windows (ipconfig w)) as [r|]; simpl; [|done].
    destruct (scan_wifi_network (srp w r)), (scan_bluetooth_devices (discover w));
      simpl; try done; eauto.
Qed.

Lemma cached_run_no_ipconfig w a cached :
  fresh_entry w a = Some cached -> EvIpconfig ∉ trace (Dashboard.start_scan w a).
Proof.
  intros He. unfold Dashboard.start_scan, is_admin, call, calls.
  cbn [mbind M_bind mret M_ret trace value].
  rewrite cached_lookup.
  assert (fresh_entry w (Dashboard.set_scan_run true a) = fresh_entry w a) as -> by done.
  rewrite He.
  destruct (default false (admin_probe w)); simpl.
  2:{ apply not_elem_of_cons; split; [done|apply not_elem_of_nil]. }
  destruct cached as [r|]; simpl.
  2:{ apply not_elem_of_cons; split; [done|apply not_elem_of_nil]. }
  destruct (scan_wifi_network (srp w r)), (scan_bluetooth_devices (discover w)); simpl;
    repeat first
      [ apply not_elem_of_nil
      | apply not_elem_of_cons; split; [discriminate|]
      | apply not_elem_of_app; split
      | by intros (? & ? & _)%list_elem_of_fmap ].
Qed.

(** ** The radio that cannot be used *)

(** C7: when the radio cannot be used ([BleakError]) the scan returns
    the empty list instead of raising, and the run goes on exactly as if
    nothing had been heard.  A terminal run that got as far as the scan
    goes on to the display and completes with an empty short-range
    table (it ends by an exception only if the sort of the first table
    raises, which the radio has no part in); a dashboard run that got
    as far as the scan ends by its rerun, with the hosts of its probe
    stored and an empty short-range result. *)
Theorem adapter_unavailable_absorbed (w : world) (a : Dashboard.app) :
  let w' := with_discover DiscoverBleakError w in
  scan_bluetooth_devices (discover w') = Returned []
  /\ Scanner.main w' = Scanner.main (with_discover (Discovered []) w)
  /\ (forall ip_range,
        default false (admin_probe w) = true ->
        platform_windows w = true ->
        get_local_network_range_windows (ipconfig w) = Some ip_range ->
        value (Scanner.main w')
        = match display_wifi_results
                  (Scanner.enrich_wifi_devices_with_hostname (gethostbyaddr w)
                     (scan_wifi_network (srp w ip_range))) with
          | Returned wifi => Complete wifi []
          | Raised => Crashed
          end)
  /\ Dashboard.start_scan w' a
     = Dashboard.start_scan (with_discover (Discovered []) w) a
  /\ (value (Dashboard.start_scan w' a)).1 <> Dashboard.ScriptError
  /\ (forall ip_range,
        default false (admin_probe w) = true ->
        used_range w a = Some ip_range ->
        (value (Dashboard.start_scan w' a)).1 = Dashboard.Rerun
        /\ Dashboard.bt_table (value (Dashboard.start_scan w' a)).2 = []
        /\ Dashboard.wifi_table (value (Dashboard.start_scan w' a)).2
           = Dashboard.enrich_wifi_devices_with_hostname (gethostbyaddr w)
               (scan_wifi_network (srp w ip_range))).
Proof.
  intros w'. split; [done|]. split; [done|].
  split.
  { intros r Hadmin Hp Hr. subst w'. destruct w as [pw ap ic sr g d t].
    simpl in *. subst pw.
    unfold Scanner.main, is_admin, call, calls. simpl.
    rewrite Hadmin. simpl. rewrite Hr. simpl.
    by destruct (display_wifi_results _). }
  split; [done|]. split.
  { subst w'. destruct w as [pw ap ic sr g d t].
    unfold Dashboard.start_scan, is_admin, call, calls,
      Dashboard.get_local_network_range_windows_cached; simpl.
    destruct (default false ap); simpl; [|done].
    destruct (Dashboard.range_cache a) as [[stored [cached|]]|]; simpl;
      try destruct (t <? stored + Dashboard.ttl); simpl; try done;
      try (destruct (get_local_network_range_windows ic) as [r|]; simpl; [|done]);
      by destruct (scan_wifi_network (sr _)). }
  intros r Hadmin Hr.
  destruct (start_scan_rerun w' a r []) as (H1 & H2 & H3 & _); try done.
Qed.

Lemma adapter_unavailable_absorbed_witness :
  value (Scanner.main (with_discover DiscoverBleakError quiet_world))
  = match display_wifi_results
            (Scanner.enrich_wifi_devices_with_hostname (gethostbyaddr quiet_world)
               (scan_wifi_network (srp quiet_world "192.168.1.0/24"))) with
    | Returned wifi => Complete wifi []
    | Raised => Crashed
    end
  /\ (value (Dashboard.start_scan (with_discover DiscoverBleakError quiet_world)
               Dashboard.init)).1 = Dashboard.Rerun
  /\ Dashboard.bt_table
       (value (Dashboard.start_scan (with_discover DiscoverBleakError quiet_world)
                 Dashboard.init)).2 = []
  /\ Dashboard.wifi_table
       (value (Dashboard.start_scan (with_discover DiscoverBleakError quiet_world)
                 Dashboard.init)).2
     = Dashboard.enrich_wifi_devices_with_hostname (gethostbyaddr quiet_world)
         (scan_wifi_network (srp quiet_world "192.168.1.0/24")).
Proof.
  exact (conj
           (proj1 (proj2 (proj2
              (adapter_unavailable_absorbed quiet_world Dashboard.init)))
              "192.168.1.0/24"%string eq_refl eq_refl eq_refl)
           (proj2 (proj2 (proj2 (proj2 (proj2
              (adapter_unavailable_absorbed quiet_world Dashboard.init)))))
              "192.168.1.0/24"%string eq_refl eq_refl)).
Defined.

(** ** Order of presentation *)

(** C8, as stated, fails.  The dashboard shows both tables in the order
    of the lists it stored: hosts as the replies came in, devices as
    they were heard (here 10.0.0.2 before 10.0.0.1 and "speaker" before
    "Band").  And the terminal display leaves the hosts as they are when
    one address cannot be read. *)
Lemma presentation_unsorted :
  c_ip <$> Dashboard.wifi_table
             (value (Dashboard.start_scan descending_world Dashboard.init)).2
    = ["10.0.0.2"; "10.0.0.1"]%string
  /\ d_name <$> Dashboard.bt_table
                  (value (Dashboard.start_scan descending_world Dashboard.init)).2
    = ["speaker"; "Band"]%string
  /\ w_ip <$> printed (display_wifi_results clients_with_bad_address)
    = ["10.0.0.2"; "10.0.0.300"; "10.0.0.1"]%string.
Proof. split_and!; reflexivity. Qed.

(** C8, amended.  The terminal program presents the wired hosts sorted
    by address as a number, ascending, when every address is one
    [ipaddress] can read and all are of one version (IPv4, as the
    replies of a probe carry, or IPv6), and in the order given when some
    address cannot be read; when the addresses can be read but are of
    both versions, the sort raises and no row is presented.  It presents
    the short-range devices sorted by name, ascending, names compared
    character by character on the code points (so case matters).  Rows
    are numbered from 1 in the order of presentation.  The dashboard
    sorts nothing: its tables are the run's lists, in the order of
    collection. *)
Theorem presentation_order
    (clients : list client) (devices : list device)
    (w : world) (a : Dashboard.app) :
  (one_version clients ->
     exists sorted_clients,
       sort_clients clients = Returned sorted_clients
       /\ StronglySorted address_le sorted_clients
       /\ sorted_clients ≡ₚ clients)
  /\ (~ Forall readable clients -> sort_clients clients = Returned clients)
  /\ (Forall readable clients -> ~ one_version clients ->
        sort_clients clients = Raised /\ display_wifi_results clients = Raised)
  /\ (forall sorted_clients,
        sort_clients clients = Returned sorted_clients ->
        exists rows,
          display_wifi_results clients = Returned rows
          /\ w_ip <$> rows = c_ip <$> sorted_clients
          /\ w_mac <$> rows = c_mac <$> sorted_clients
          /\ w_index <$> rows = seq 1 (length clients))
  /\ StronglySorted name_le (sort_devices devices)
  /\ sort_devices devices ≡ₚ devices
  /\ b_mac <$> display_bluetooth_results devices = d_mac <$> sort_devices devices
  /\ b_index <$> display_bluetooth_results devices = seq 1 (length devices)
  /\ (forall ip_range bluetooth_devices,
        default false (admin_probe w) = true ->
        used_range w a = Some ip_range ->
        scan_bluetooth_devices (discover w) = Returned bluetooth_devices ->
        Dashboard.wifi_table (value (Dashboard.start_scan w a)).2
        = Dashboard.enrich_wifi_devices_with_hostname (gethostbyaddr w)
            (scan_wifi_network (srp w ip_range))
        /\ Dashboard.bt_table (value (Dashboard.start_scan w a)).2
           = bluetooth_devices).
Proof.
  split; [apply sort_clients_one_version|].
  split; [apply sort_clients_fallback|].
  split.
  { intros Hr Hm. pose proof (sort_clients_mixed _ Hr Hm) as Hs.
    split; [done|by apply display_wifi_raised]. }
  split; [apply display_wifi_rows|].
  destruct (sort_devices_sorted devices) as [? ?].
  destruct (display_bluetooth_rows devices) as [? ?].
  split_and!; try done.
  intros r bt Hadmin Hrange Hbt.
  destruct (start_scan_rerun w a r bt Hadmin Hrange Hbt) as (_ & ? & ? & _).
  done.
Qed.

Lemma presentation_order_witness :
  exists sorted_clients,
    sort_clients two_clients_descending = Returned sorted_clients
    /\ StronglySorted address_le sorted_clients
    /\ sorted_clients ≡ₚ two_clients_descending.
Proof.
  apply (presentation_order two_clients_descending [] quiet_world Dashboard.init).
  exists 4. by repeat constructor.
Defined.

(** What the sort does with the sample lists: the two hosts come out
    in ascending order, IPv6 addresses are sorted like IPv4 ones, and
    addresses of both versions make it raise. *)
Lemma sort_clients_samples :
  sort_clients two_clients_descending = Returned two_clients
  /\ c_ip <$> printed (sort_clients ipv6_clients) = ["::1"; "::2"]%string
  /\ sort_clients mixed_clients = Raised
  /\ display_wifi_results mixed_clients = Raised.
Proof. split_and!; reflexivity. Qed.

(** Upper case sorts before lower case. *)
Lemma sort_devices_case :
  sort_devices [Device "apple" "00:01"; Device "Zebra" "00:02"; Device "Band" "00:03"]
  = [Device "Band" "00:03"; Device "Zebra" "00:02"; Device "apple" "00:01"]%string.
Proof. reflexivity. Qed.

(** ** Consecutive runs *)

(** C4, as stated, fails.  The second of two dashboard runs, started
    five seconds after the first on a machine that has moved to another
    network, does not look at the interface configuration: it probes the
    range the first run resolved, where nothing answers any more, and
    shows no host.  A new session in the same world resolves and probes
    10.0.0.0/24 and finds the router. *)
Lemma second_run_uses_cached_range :
  observe (Dashboard.start_scan first_world Dashboard.init)
  = ([EvIsAdmin; EvIpconfig; EvSrp "192.168.1.0/24";
      EvGethostbyaddr "192.168.1.1"; EvDiscover],
     Dashboard.Rerun,
     [Client "192.168.1.1" "aa:bb:cc:dd:ee:ff" (Some "N/A")], [])%string
  /\ observe (Dashboard.start_scan second_world
                (Dashboard.scan_again after_first_run))
  = ([EvIsAdmin; EvSrp "192.168.1.0/24"; EvDiscover],
     Dashboard.Rerun, [], [])%string
  /\ observe (Dashboard.start_scan second_world Dashboard.init)
  = ([EvIsAdmin; EvIpconfig; EvSrp "10.0.0.0/24"; EvGethostbyaddr "10.0.0.1";
      EvDiscover],
     Dashboard.Rerun,
     [Client "10.0.0.1" "11:22:33:44:55:66" (Some "N/A")], [])%string.
Proof. split_and!; vm_compute; reflexivity. Qed.

(** C4, amended.  "Scan Again" discards the prior snapshot: the session
    is back at "not scanned" with two new empty lists.  Of an earlier
    run only the cache entry of the resolved range survives, and it is
    consulted: while it is younger than 600 seconds the next run takes
    its range from it without running [ipconfig]; once there is no such
    entry the run is, call for call and table for table, the run of a
    new session.  The results of a completed run are built by that run,
    from its own probe of the range it used, in list objects it creates:
    writing to the lists of the earlier snapshot does not change the new
    tables, and writing to the new lists does not change the earlier
    ones. *)
Theorem consecutive_dashboard_runs (w : world) (a : Dashboard.app) :
  wf a ->
  let idle := Dashboard.scan_again a in
  let run := Dashboard.start_scan w idle in
  let a' := (value run).2 in
  Dashboard.scan_run idle = false
  /\ Dashboard.wifi_table idle = []
  /\ Dashboard.bt_table idle = []
  /\ fresh_entry w idle = fresh_entry w a
  /\ (forall cached, fresh_entry w a = Some cached ->
        (EvIpconfig ∉ trace run) /\ used_range w idle = cached)
  /\ (fresh_entry w a = None ->
        observe run = observe (Dashboard.start_scan w Dashboard.init))
  /\ ((value run).1 = Dashboard.Rerun ->
        exists ip_range bluetooth_devices,
          used_range w a = Some ip_range
          /\ scan_bluetooth_devices (discover w) = Returned bluetooth_devices
          /\ Dashboard.wifi_table a'
             = Dashboard.enrich_wifi_devices_with_hostname (gethostbyaddr w)
                 (scan_wifi_network (srp w ip_range))
          /\ Dashboard.bt_table a' = bluetooth_devices
          /\ (forall r o,
                r = Dashboard.wifi_results a \/ r = Dashboard.bt_results a ->
                Dashboard.wifi_table (Dashboard.write r o a')
                = Dashboard.wifi_table a'
                /\ Dashboard.bt_table (Dashboard.write r o a')
                   = Dashboard.bt_table a')
          /\ (forall r o,
                r = Dashboard.wifi_results a' \/ r = Dashboard.bt_results a' ->
                Dashboard.heap (Dashboard.write r o a') !! Dashboard.wifi_results a
                = Dashboard.heap a !! Dashboard.wifi_results a
                /\ Dashboard.heap (Dashboard.write r o a') !! Dashboard.bt_results a
                   = Dashboard.heap a !! Dashboard.bt_results a)).
Proof.
  intros Hwf idle run a'.
  destruct (scan_again_idle a) as (Hrun & Hwt & Hbt & Hcache & Hwr & Hbr & Hnext & Hheap).
  fold idle in Hrun, Hwt, Hbt, Hcache, Hwr, Hbr, Hnext, Hheap.
  assert (fresh_entry w idle = fresh_entry w a) as Hfresh.
  { unfold fresh_entry. by rewrite Hcache. }
  assert (used_range w idle = used_range w a) as Hused.
  { unfold used_range. by rewrite Hfresh. }
  split_and!; try done.
  - intros cached He. split.
    + apply (cached_run_no_ipconfig w idle cached). by rewrite Hfresh.
    + unfold used_range. by rewrite Hfresh, He.
  - intros He. apply start_scan_observe.
    + apply scan_again_wf.
    + apply init_wf.
    + by rewrite Hwt.
    + by rewrite Hbt.
    + by rewrite Hfresh, He.
  - intros Hend.
    destruct (start_scan_rerun_inv w idle Hend) as (Hadmin & r & bt & Hr & Hb).
    destruct (start_scan_rerun w idle r bt Hadmin Hr Hb)
      as (_ & Hw' & Hb' & _ & Hwr' & Hbr' & _ & Hheap' & _).
    fold run in Hw', Hb', Hwr', Hbr', Hheap'. fold a' in Hw', Hb', Hwr', Hbr', Hheap'.
    destruct Hwf as [Hwf1 Hwf2].
    exists r, bt. rewrite <- Hused. split_and!; try done.
    + intros x o Hx.
      unfold Dashboard.wifi_table, Dashboard.bt_table, Dashboard.wifi_list,
        Dashboard.bt_list, Dashboard.write. simpl.
      rewrite !lookup_insert_ne by (destruct Hx; lia). done.
    + intros x o Hx. unfold Dashboard.write. simpl.
      rewrite !lookup_insert_ne by (destruct Hx; lia).
      rewrite !Hheap' by lia. rewrite !Hheap by lia. done.
Qed.

Lemma consecutive_dashboard_runs_witness :
  (EvIpconfig ∉ trace (Dashboard.start_scan second_world
                         (Dashboard.scan_again after_first_run)))
  /\ used_range second_world (Dashboard.scan_again after_first_run)
     = Some "192.168.1.0/24"%string.
Proof.
  apply (consecutive_dashboard_runs second_world after_first_run
           (start_scan_wf first_world Dashboard.init init_wf)).
  reflexivity.
Defined.

(** When no range is found the dashboard stops its script with
    [scan_run] still set: the session is left at "scanned", its two
    lists as they were. *)
Theorem no_range_keeps_scan_run (w : world) (a : Dashboard.app) :
  default false (admin_probe w) = true ->
  used_range w a = None ->
  let run := Dashboard.start_scan w a in
  (value run).1 = Dashboard.Stopped
  /\ Dashboard.scan_run (value run).2 = true
  /\ Dashboard.wifi_table (value run).2 = Dashboard.wifi_table a
  /\ Dashboard.bt_table (value run).2 = Dashboard.bt_table a
  /\ (forall ip_range, EvSrp ip_range ∉ trace run).
Proof.
  destruct w as [pw ap ic sr g d t], a as [h n s wr br rc].
  unfold used_range, fresh_entry. simpl. intros Hadmin Hrange.
  unfold Dashboard.start_scan, is_admin, call, calls,
    Dashboard.get_local_network_range_windows_cached. simpl.
  rewrite Hadmin. simpl.
  destruct rc as [[stored cached]|]; [destruct (t <? stored + Dashboard.ttl)|];
    simpl in *; rewrite Hrange; simpl; split_and!; try done;
    intros r; repeat (apply not_elem_of_cons; split; [discriminate|]);
    apply not_elem_of_nil.
Qed.

Lemma no_range_keeps_scan_run_witness :
  Dashboard.scan_run
    (value (Dashboard.start_scan
              (World true (Some true) IpconfigRaised (fun _ => SrpAnswered [])
                 (fun _ _ => Herror) (Discovered []) 0)
              Dashboard.init)).2
  = true.
Proof.
  apply (no_range_keeps_scan_run
           (World true (Some true) IpconfigRaised (fun _ => SrpAnswered [])
              (fun _ _ => Herror) (Discovered []) 0)
           Dashboard.init); reflexivity.
Defined.

(** ** The printed tables *)








Lemma display_wifi_lookup clients rows i r :
  display_wifi_results clients = Returned rows ->
  rows !! i = Some r ->
  exists y,
    y ∈ clients /\ (i < length clients)%nat
    /\ r = WifiRow (i + 1) (c_ip y) (c_mac y)
             (str_take name_width (default "N/A"%string (c_name y))).
Proof.
  unfold display_wifi_results.
  destruct (sort_clients clients) as [sorted_clients|] eqn:Hs; [|done].
  intros [= <-]. rewrite list_lookup_imap.
  destruct (sorted_clients !! i) as [y|] eqn:Hy; [|done].
  intros [= <-]. exists y. split_and!; [| |done].
  - rewrite <- (sort_clients_perm _ _ Hs). by eapply list_elem_of_lookup_2.
  - rewrite <- (Permutation_length (sort_clients_perm _ _ Hs)).
    by eapply lookup_lt_Some.
Qed.


Lemma display_bluetooth_lookup devices i r :
  display_bluetooth_results devices !! i = Some r ->
  exists y,
    sort_devices devices !! i = Some y
    /\ r = BluetoothRow (i + 1)
             (str_take name_width
                (if truthy (d_name y) then d_name y else "N/A"%string))
             (d_mac y).
Proof.
  unfold display_bluetooth_results. rewrite list_lookup_imap.
  destruct (sort_devices devices !! i) as [y|]; [|done].
  intros [= <-]. by exists y.
Qed.







(** ** The name cells *)

Lemma str_take_spec n s :
  exists rest,
    s = str_take n s +:+ rest
    /\ String.length (str_take n s) = (n `min` String.length s)%nat.
Proof.
  revert s. induction n as [|n IH]; intros [|a s].
  - by exists ""%string.
  - by exists (String a s).
  - by exists ""%string.
  - destruct (IH s) as (rest & Hs & Hl). exists rest. split.
    + change (String a s = String a (str_take n s +:+ rest)). by rewrite <- Hs.
    + simpl. by rewrite Hl.
Qed.

(** X7: in both tables a name cell holds the beginning of the name it
    stands for: all of it when it has at most 28 characters, its first
    28 characters otherwise.  The name a row of the first table stands
    for is the host's name entry, or "N/A" for a host without one; in
    the second table it is the device's name, or "N/A" for an empty one.
    Every row belongs to an entry of the list that was displayed.  (A
    first table whose sort raised has no rows.) *)
Theorem name_cells_cut (clients_list : list client) (devices : list device) :
  Forall
    (fun r => exists x rest,
       x ∈ clients_list /\ w_ip r = c_ip x /\ w_mac r = c_mac x
       /\ default "N/A"%string (c_name x) = w_name r +:+ rest
       /\ String.length (w_name r)
          = (28 `min` String.length (default "N/A"%string (c_name x)))%nat)
    (printed (display_wifi_results clients_list))
  /\ Forall
       (fun r => exists x rest,
          x ∈ devices /\ b_mac r = d_mac x
          /\ (if truthy (d_name x) then d_name x else "N/A"%string)
             = b_name r +:+ rest
          /\ String.length (b_name r)
             = (28 `min` String.length
                           (if truthy (d_name x) then d_name x else "N/A"%string))%nat)
       (display_bluetooth_results devices).
Proof.
  split; apply Forall_forall; intros r [i Hi]%list_elem_of_lookup.
  - destruct (display_wifi_results clients_list) as [rows|] eqn:Hd; [|done].
    destruct (display_wifi_lookup _ _ _ _ Hd Hi) as (x & Hx & _ & ->).
    destruct (str_take_spec name_width (default "N/A"%string (c_name x)))
      as (rest & Hrest & Hlen).
    by exists x, rest.
  - apply display_bluetooth_lookup in Hi as (x & Hx & ->).
    destruct (str_take_spec name_width
                (if truthy (d_name x) then d_name x else "N/A"%string))
      as (rest & Hrest & Hlen).
    exists x, rest. split_and!; try done.
    destruct (sort_devices_sorted devices) as [_ <-].
    by eapply list_elem_of_lookup_2.
Qed.

(** ** The terminal program from end to end *)

(** X8: on a platform other than Windows the terminal program never gets
    to a scan: whatever the privilege query says, the run consists of
    that query alone and exits with status 1 (no range is looked up, no
    frame is sent, no radio scan is made). *)
Theorem other_platform_exits (w : world) :
  platform_windows w = false -> Scanner.main w = Run [EvIsAdmin] (Exit 1).
Proof.
  intros Hp. unfold Scanner.main, is_admin, call.
  cbn [mbind M_bind mret M_ret trace value]. rewrite Hp.
  by destruct (default false (admin_probe w)).
Qed.

Lemma other_platform_exits_witness :
  Scanner.main
    (World false (Some true) IpconfigRaised (fun _ => SrpAnswered [])
       (fun _ _ => Herror) (Discovered []) 0)
  = Run [EvIsAdmin] (Exit 1).
Proof. by apply other_platform_exits. Defined.

(** X9: when the frame transport raises, [scan_wifi_network] returns the
    empty list and the run goes on exactly as if no host had answered:
    both programs make the same calls, end the same way and leave the
    same results as in the world where every probe is answered by
    nobody. *)
Theorem transport_failure_absorbed (w : world) (a : Dashboard.app) :
  (forall ip_range, srp w ip_range = SrpRaised) ->
  Scanner.main w = Scanner.main (with_srp (fun _ => SrpAnswered []) w)
  /\ Dashboard.start_scan w a
     = Dashboard.start_scan (with_srp (fun _ => SrpAnswered []) w) a.
Proof.
  intros Hsrp. destruct w as [pw ap ic sr g d t], a as [h n s wr br rc].
  simpl in Hsrp.
  unfold Scanner.main, Dashboard.start_scan, is_admin, call, calls,
    Dashboard.get_local_network_range_windows_cached, with_srp,
    mbind, M_bind, mret, M_ret. simpl.
  destruct (default false ap); simpl; [|done].
  split.
  - destruct pw; simpl; [|done].
    destruct (get_local_network_range_windows ic) as [r|]; simpl; [|done].
    by rewrite Hsrp.
  - destruct rc as [[stored cached]|];
      [destruct (t <? stored + Dashboard.ttl)|]; simpl.
    + destruct cached as [r|]; simpl; [|done]. by rewrite Hsrp.
    + destruct (get_local_network_range_windows ic) as [r|]; simpl; [|done].
      by rewrite Hsrp.
    + destruct (get_local_network_range_windows ic) as [r|]; simpl; [|done].
      by rewrite Hsrp.
Qed.

Lemma transport_failure_absorbed_witness :
  Scanner.main (with_srp (fun _ => SrpRaised) quiet_world)
  = Scanner.main
      (with_srp (fun _ => SrpAnswered []) (with_srp (fun _ => SrpRaised) quiet_world))
  /\ Dashboard.start_scan (with_srp (fun _ => SrpRaised) quiet_world) Dashboard.init
     = Dashboard.start_scan
         (with_srp (fun _ => SrpAnswered []) (with_srp (fun _ => SrpRaised) quiet_world))
         Dashboard.init.
Proof. by apply transport_failure_absorbed. Defined.

Lemma usable_truthy d :
  ~ unusable d ->
  (if truthy (d_name (device_of d)) then d_name (device_of d) else "N/A"%string)
  = default ""%string (name d).
Proof.
  unfold unusable, device_of, truthy. intros Hu. simpl.
  destruct (name d) as [n|]; [|tauto]. simpl.
  destruct (String.eqb_spec n ""); [subst; tauto|done].
Qed.

(** X10: a run of the terminal program that gets through, from end to
    end, when every reply carries an address that reads as an IPv4
    address: it queries the privilege, reads the interface
    configuration, probes the resolved range, looks up each reply's
    address once in the order of the replies, and scans the radio last;
    its first table has one row per reply (the rows are a rearrangement
    of the replies, each with that reply's addresses and the name its
    lookup gave, cut to 28 characters, or "N/A"), its second table one
    row per advertisement with a usable name, and both are numbered
    from 1. *)
Theorem completed_terminal_run (w : world) (ip_range : string)
    (answered_list : list (arp_packet * arp_packet)) (discovered : list BLEDevice) :
  default false (admin_probe w) = true ->
  platform_windows w = true ->
  get_local_network_range_windows (ipconfig w) = Some ip_range ->
  srp w ip_range = SrpAnswered answered_list ->
  Forall (fun element => valid_address (client_of element)) answered_list ->
  discover w = Discovered discovered ->
  exists wifi bluetooth,
    Scanner.main w
    = Run (EvIsAdmin :: EvIpconfig :: EvSrp ip_range
             :: ((fun element => EvGethostbyaddr (psrc element.2)) <$> answered_list)
             ++ [EvDiscover])
          (Complete wifi bluetooth)
    /\ wifi_cells <$> wifi ≡ₚ imap (reply_cells (gethostbyaddr w)) answered_list
    /\ w_index <$> wifi = seq 1 (length answered_list)
    /\ bluetooth_cells <$> bluetooth
       ≡ₚ advertisement_cells <$> filter (fun d => ~ unusable d) discovered
    /\ b_index <$> bluetooth
       = seq 1 (length (filter (fun d => ~ unusable d) discovered)).
Proof.
  intros Hadmin Hp Hrange Hsrp Hvalid Hd.
  destruct w as [pw ap ic sr g d t]. simpl in *. subst pw d.
  unfold Scanner.main, is_admin, call, calls, mbind, M_bind, mret, M_ret. simpl.
  rewrite Hadmin. simpl. rewrite Hrange. simpl. rewrite Hsrp.
  cbn [scan_wifi_network].
  rewrite collect_clients_map, scanner_enrich.
  unfold collect_devices. rewrite collect_devices_from. cbn [app].
  set (enriched := imap (annotate g) (client_of <$> answered_list)).
  assert (Forall valid_address enriched) as Hv.
  { apply Forall_forall. intros c [i Hi]%list_elem_of_lookup.
    subst enriched. rewrite list_lookup_imap, list_lookup_fmap in Hi.
    destruct (answered_list !! i) as [element|] eqn:He; [|done].
    injection Hi as <-. eapply Forall_forall in Hvalid; [exact Hvalid|].
    by eapply list_elem_of_lookup_2. }
  destruct (sort_clients_valid _ Hv) as (sorted_clients & Hs & _ & Hperm).
  destruct (display_wifi_rows _ _ Hs) as (rows & Hrows & _ & _ & Hidx).
  rewrite Hrows. eexists _, _. split_and!.
  - by rewrite <- list_fmap_compose.
  - unfold display_wifi_results in Hrows. rewrite Hs in Hrows.
    injection Hrows as <-. rewrite fmap_imap.
    rewrite (imap_const
               (fun x => (c_ip x, c_mac x,
                          str_take name_width (default "N/A"%string (c_name x))))).
    rewrite Hperm. subst enriched. rewrite fmap_imap, imap_fmap. done.
  - rewrite Hidx. subst enriched. by rewrite length_imap, length_fmap.
  - unfold display_bluetooth_results. rewrite fmap_imap.
    rewrite (imap_const
               (fun x => (str_take name_width
                            (if truthy (d_name x) then d_name x else "N/A"%string),
                          d_mac x))).
    unfold sort_devices. rewrite sorted_perm, <- list_fmap_compose.
    apply reflexive_eq, Forall_fmap_ext, Forall_forall.
    intros d [Hu _]%list_elem_of_filter. cbn [compose].
    by rewrite usable_truthy.
  - destruct (display_bluetooth_rows
                (device_of <$> filter (fun d => ~ unusable d) discovered)) as [_ ->].
    by rewrite length_fmap.
Qed.

Lemma completed_terminal_run_witness :
  exists wifi bluetooth,
    Scanner.main descending_world
    = Run (EvIsAdmin :: EvIpconfig :: EvSrp "10.0.0.0/24"
             :: ((fun element => EvGethostbyaddr (psrc element.2)) <$> descending_answers)
             ++ [EvDiscover])
          (Complete wifi bluetooth)
    /\ wifi_cells <$> wifi
       ≡ₚ imap (reply_cells (gethostbyaddr descending_world)) descending_answers
    /\ w_index <$> wifi = seq 1 (length descending_answers)
    /\ bluetooth_cells <$> bluetooth
       ≡ₚ advertisement_cells
            <$> filter (fun d => ~ unusable d)
                  [Build_BLEDevice "00:11:22:33:44:55" (Some "speaker");
                   Build_BLEDevice "00:11:22:33:44:56" (Some "Band")]%string
    /\ b_index <$> bluetooth
       = seq 1 (length (filter (fun d => ~ unusable d)
                          [Build_BLEDevice "00:11:22:33:44:55" (Some "speaker");
                           Build_BLEDevice "00:11:22:33:44:56" (Some "Band")]%string)).
Proof.
  apply (completed_terminal_run descending_world "10.0.0.0/24"); try done.
  repeat constructor; by eexists.
Defined.

(** ** The two programs side by side *)

(** X11: started on Windows with no usable cache entry, a dashboard run
    is the terminal program's run: both make the same calls in the same
    order and end alike (exit with status 1 where the script stops, an
    escaped exception in both, completion where the script reruns), and
    the tables the terminal program prints are the display of the two
    lists the dashboard stores.  One ending is the terminal program's
    alone: its sort of the first table raises on addresses of both
    versions, which ends it with an escaped exception, while the
    dashboard, which does not sort, reruns with the same list stored. *)
Theorem programs_agree (w : world) (a : Dashboard.app) :
  platform_windows w = true ->
  fresh_entry w a = None ->
  trace (Scanner.main w) = trace (Dashboard.start_scan w a)
  /\ match value (Scanner.main w) with
     | Exit code =>
         code = 1 /\ (value (Dashboard.start_scan w a)).1 = Dashboard.Stopped
     | Crashed =>
         (value (Dashboard.start_scan w a)).1 = Dashboard.ScriptError
         \/ ((value (Dashboard.start_scan w a)).1 = Dashboard.Rerun
             /\ display_wifi_results
                  (Dashboard.wifi_table (value (Dashboard.start_scan w a)).2)
                = Raised)
     | Complete wifi bluetooth =>
         (value (Dashboard.start_scan w a)).1 = Dashboard.Rerun
         /\ display_wifi_results
              (Dashboard.wifi_table (value (Dashboard.start_scan w a)).2)
            = Returned wifi
         /\ bluetooth
            = display_bluetooth_results
                (Dashboard.bt_table (value (Dashboard.start_scan w a)).2)
     end.
Proof.
  intros Hp Hfresh.
  unfold Scanner.main, Dashboard.start_scan, is_admin, call, calls.
  cbn [mbind M_bind mret M_ret trace value].
  rewrite cached_lookup.
  assert (fresh_entry w (Dashboard.set_scan_run true a) = fresh_entry w a) as -> by done.
  rewrite Hfresh, Hp.
  destruct a as [h n s wr br rc].
  destruct (default false (admin_probe w)); simpl; [|done].
  destruct (get_local_network_range_windows (ipconfig w)) as [r|]; simpl; [|done].
  pose proof (enrich_same (gethostbyaddr w) (scan_wifi_network (srp w r))) as He.
  revert He.
  generalize (Dashboard.enrich_wifi_devices_with_hostname (gethostbyaddr w)
                (scan_wifi_network (srp w r))).
  intros ? ->.
  assert (scan_wifi_network (srp w r) = [] ->
          Scanner.enrich_wifi_devices_with_hostname (gethostbyaddr w)
            (scan_wifi_network (srp w r)) = []) as Hempty by (by intros ->).
  revert Hempty.
  generalize (Scanner.enrich_wifi_devices_with_hostname (gethostbyaddr w)
                (scan_wifi_network (srp w r))).
  intros enriched Hempty.
  destruct (scan_wifi_network (srp w r)) as [|x l];
    [rewrite (Hempty eq_refl)|clear Hempty];
    (destruct (scan_bluetooth_devices (discover w)) as [bluetooth_devices|];
     [|simpl; split; [done|by left]]).
  all: match goal with
       | |- context [display_wifi_results ?l] =>
           destruct (display_wifi_results l) as [wifi|] eqn:Hd
       end; simpl; (split; [done|]).
  all: unfold Dashboard.wifi_table, Dashboard.bt_table, Dashboard.wifi_list,
      Dashboard.bt_list; simpl;
    repeat first [rewrite lookup_insert_eq | rewrite lookup_insert_ne by lia];
    first [done | by right].
Qed.

Lemma programs_agree_witness :
  trace (Scanner.main descending_world)
  = trace (Dashboard.start_scan descending_world Dashboard.init)
  /\ match value (Scanner.main descending_world) with
     | Exit code =>
         code = 1
         /\ (value (Dashboard.start_scan descending_world Dashboard.init)).1
            = Dashboard.Stopped
     | Crashed =>
         (value (Dashboard.start_scan descending_world Dashboard.init)).1
         = Dashboard.ScriptError
         \/ ((value (Dashboard.start_scan descending_world Dashboard.init)).1
             = Dashboard.Rerun
             /\ display_wifi_results
                  (Dashboard.wifi_table
                     (value (Dashboard.start_scan descending_world Dashboard.init)).2)
                = Raised)
     | Complete wifi bluetooth =>
         (value (Dashboard.start_scan descending_world Dashboard.init)).1
         = Dashboard.Rerun
         /\ display_wifi_results
              (Dashboard.wifi_table
                 (value (Dashboard.start_scan descending_world Dashboard.init)).2)
            = Returned wifi
         /\ bluetooth
            = display_bluetooth_results
                (Dashboard.bt_table
                   (value (Dashboard.start_scan descending_world Dashboard.init)).2)
     end.
Proof. by apply programs_agree. Defined.

(** ** The cached range *)



(** ** The script as a whole *)

Lemma start_scan_session w a :
  let a' := (value (Dashboard.start_scan w a)).2 in
  (Dashboard.scan_run a' = true
   \/ (Dashboard.scan_run a' = false
       /\ Dashboard.wifi_table a' = Dashboard.wifi_table a
       /\ Dashboard.bt_table a' = Dashboard.bt_table a)).
Proof.
  destruct a as [h n s wr br rc].
  unfold Dashboard.start_scan, is_admin, call, calls,
    Dashboard.get_local_network_range_windows_cached. simpl.
  destruct (default false (admin_probe w)); simpl; [|by right].
  left.
  destruct rc as [[stored cached]|];
    [destruct (now w <? stored + Dashboard.ttl)|]; simpl.
  - destruct cached as [r|]; simpl; [|done].
    by destruct (scan_wifi_network (srp w r)), (scan_bluetooth_devices (discover w)).
  - destruct (get_local_network_range_windows (ipconfig w)) as [r|]; simpl; [|done].
    by destruct (scan_wifi_network (srp w r)), (scan_bluetooth_devices (discover w)).
  - destruct (get_local_network_range_windows (ipconfig w)) as [r|]; simpl; [|done].
    by destruct (scan_wifi_network (srp w r)), (scan_bluetooth_devices (discover w)).
Qed.

Lemma script_start w a :
  Dashboard.scan_run a = false ->
  (value (Script.script Script.StartFullNetworkScan w a)).2
  = (value (Dashboard.start_scan w a)).2
  /\ trace (Script.script Script.StartFullNetworkScan w a)
     = trace (Dashboard.start_scan w a).
Proof.
  intros Hs. unfold Script.script. rewrite Hs.
  cbn [negb mbind M_bind mret M_ret trace value].
  destruct (Dashboard.start_scan w a) as [t [e a']]. simpl.
  split; [done|apply app_nil_r].
Qed.

(** While the session says "not scanned", its two result lists are
    empty. *)
Lemma visited_idle_empty a :
  visited a ->
  Dashboard.scan_run a = false ->
  Dashboard.wifi_table a = [] /\ Dashboard.bt_table a = [].
Proof.
  induction 1 as [|c w a Hv IH]; [by vm_compute|].
  destruct (Dashboard.scan_run a) eqn:Hs.
  - unfold Script.script. rewrite Hs. cbn [negb].
    destruct c; cbn [mret M_ret value snd]; try congruence.
    intros _. by destruct (scan_again_idle a) as (_ & ? & ? & _).
  - destruct c.
    + unfold Script.script. rewrite Hs. simpl. intros _. by apply IH.
    + destruct (script_start w a Hs) as [-> _]. intros Hs'.
      destruct (start_scan_session w a) as [?|(_ & -> & ->)]; [congruence|].
      by apply IH.
    + unfold Script.script. rewrite Hs. simpl. intros _. by apply IH.
Qed.

(** X13: when a click on "Start Full Network Scan" ends with no network
    range, the session is left at "scanned" with empty results; a
    further click on that button (still on the page of the stopped
    execution) then starts nothing: the script makes no call, changes
    nothing, and shows "Scan Complete!" with the two "no devices" lines
    in place of the tables. *)
Theorem start_click_after_failed_lookup (w w' : world) (a : Dashboard.app) :
  visited a ->
  Dashboard.scan_run a = false ->
  default false (admin_probe w) = true ->
  used_range w a = None ->
  let a' := (value (Script.script Script.StartFullNetworkScan w a)).2 in
  Script.script Script.StartFullNetworkScan w' a'
  = Run [] (Script.Shown (Script.AfterScan None None), a').
Proof.
  intros Hv Hs Hadmin Hrange a'.
  destruct (visited_idle_empty a Hv Hs) as [Hw Hb].
  assert (Dashboard.scan_run a' = true /\ Dashboard.wifi_table a' = []
          /\ Dashboard.bt_table a' = []) as (Hs' & Hw' & Hb').
  { subst a'. destruct (script_start w a Hs) as [-> _].
    rewrite <- Hw, <- Hb. clear Hv Hw Hb.
    unfold Dashboard.start_scan, is_admin, call, calls.
    cbn [mbind M_bind mret M_ret trace value].
    rewrite cached_lookup. unfold used_range in Hrange.
    assert (fresh_entry w (Dashboard.set_scan_run true a) = fresh_entry w a) as -> by done.
    rewrite Hadmin. destruct a as [h n s wr br rc]. simpl in *.
    destruct (fresh_entry w _) as [cached|]; simpl in *; by rewrite Hrange. }
  unfold Script.script. by rewrite Hs', Hw', Hb'.
Qed.

Lemma start_click_after_failed_lookup_witness :
  Script.script Script.StartFullNetworkScan first_world
    (value (Script.script Script.StartFullNetworkScan unconnected_world
              Dashboard.init)).2
  = Run [] (Script.Shown (Script.AfterScan None None),
            (value (Script.script Script.StartFullNetworkScan unconnected_world
                      Dashboard.init)).2).
Proof.
  apply (start_click_after_failed_lookup unconnected_world first_world Dashboard.init);
    [constructor | reflexivity | reflexivity | reflexivity].
Defined.

(** ** What the resolver returns *)

Lemma lit_startswith p s : startswith p s = false -> Re.lit p s = None.
Proof.
  revert s. induction p as [|a p IH]; intros [|b s]; simpl; try done.
  destruct (Ascii.eqb a b); simpl; [apply IH|done].
Qed.

Lemma finditer_unlabelled skip text :
  contains "IPv4 Address" text = false -> Re.finditer_from skip text = [].
Proof.
  revert skip. induction text as [|c text IH]; intros skip Hc; [done|].
  cbn [contains] in Hc. apply orb_false_elim in Hc as [Hhere Hlater].
  cbn [Re.finditer_from]. destruct skip as [|k]; [|by apply IH].
  unfold Re.match_at. rewrite (lit_startswith _ _ Hhere). cbn [mbind option_bind].
  by apply IH.
Qed.

(** X14: the resolver finds addresses only behind the English label: on
    a text in which the words "IPv4 Address" do not occur (the output of
    a Windows in another language, say) it returns no range, whatever
    addresses and masks the text holds. *)
Theorem unlabelled_text_gives_no_range (text : string) :
  contains "IPv4 Address" text = false ->
  get_local_network_range_windows (IpconfigOutput text) = None.
Proof.
  intros Hc. cbn [get_local_network_range_windows]. unfold Re.finditer.
  by rewrite finditer_unlabelled.
Qed.

Lemma unlabelled_text_gives_no_range_witness :
  get_local_network_range_windows (IpconfigOutput ipconfig_german) = None.
Proof. by apply unlabelled_text_gives_no_range. Defined.

Lemma int_of_digits_nonneg s acc : 0 <= acc -> 0 <= Ipaddress.int_of_digits acc s.
Proof.
  revert acc. induction s as [|c s IH]; intros acc Hacc; simpl; [done|].
  apply IH. unfold Ipaddress.digit_val. destruct (Ascii.is_nat c); lia.
Qed.

Lemma prefix_from_ip_int_range x p :
  Ipaddress.prefix_from_ip_int x = Some p -> 0 <= p <= 32.
Proof.
  unfold Ipaddress.prefix_from_ip_int, Ipaddress.count_righthand_zero_bits,
    Ipaddress.max_prefixlen, Ipaddress.bit_length.
  destruct (_ =? _)%Z; [|done]. intros [= <-].
  destruct (x =? 0); [lia|].
  destruct (_ =? 0); [lia|].
  pose proof (Z.log2_nonneg (Z.abs (Z.land (Z.lnot x) (x - 1)))). lia.
Qed.

Lemma make_netmask_range mask p :
  Ipaddress.make_netmask mask = Some p -> 0 <= p <= 32.
Proof.
  unfold Ipaddress.make_netmask.
  destruct (Ipaddress.prefix_from_prefix_string mask) as [q|] eqn:Hq.
  - intros [= <-]. unfold Ipaddress.prefix_from_prefix_string in Hq.
    destruct mask as [|c s]; [done|].
    destruct (Ipaddress.all_digits _); [|done].
    destruct (_ <=? _) eqn:Hle; [|done]. injection Hq as <-.
    apply Z.leb_le in Hle. unfold Ipaddress.max_prefixlen in Hle.
    pose proof (int_of_digits_nonneg (String c s) 0 ltac:(lia)). by split.
  - unfold Ipaddress.prefix_from_ip_string.
    destruct (Ipaddress.ip_int_from_string mask) as [x|]; [|done].
    cbn [mbind option_bind].
    destruct (Ipaddress.prefix_from_ip_int x) as [q|] eqn:Hx.
    + intros [= <-]. by eapply prefix_from_ip_int_range.
    + apply prefix_from_ip_int_range.
Qed.

(** Masking an address with the netmask of a prefix length clears its
    host bits. *)
Lemma land_netmask a p :
  0 <= a < 2 ^ 32 -> 0 <= p <= 32 ->
  Z.land a (Ipaddress.ip_int_from_prefix p) = network_base a p.
Proof.
  intros Ha Hp. destruct (netmask_prefix p Hp) as [_ ->].
  unfold netmask_of, network_base.
  set (k := 32 - p). assert (0 <= k <= 32) as Hk by lia.
  replace (2 ^ 32 - 2 ^ k) with (Z.shiftl (Z.ones (32 - k)) k).
  2:{ rewrite Z.shiftl_mul_pow2, Z.ones_equiv by lia.
      replace (2 ^ 32) with (2 ^ (32 - k) * 2 ^ k); [lia|].
      rewrite <- Z.pow_add_r by lia. f_equal. lia. }
  replace (2 ^ k * (a / 2 ^ k)) with (Z.shiftl (Z.shiftr a k) k).
  2:{ rewrite Z.shiftl_mul_pow2, Z.shiftr_div_pow2 by lia. lia. }
  apply Z.bits_inj'. intros n Hn.
  rewrite Z.land_spec, !Z.shiftl_spec by lia.
  destruct (decide (n < k)) as [Hlt|Hge].
  - rewrite !(Z.testbit_neg_r _ (n - k)) by lia. apply andb_false_r.
  - rewrite Z.shiftr_spec by lia. replace (n - k + k) with n by lia.
    destruct (decide (n < 32)) as [Hlt|Hbig].
    + rewrite Z.ones_spec_low by lia. apply andb_true_r.
    + rewrite Z.ones_spec_high by lia. rewrite andb_false_r.
      symmetry. destruct (decide (a = 0)) as [->|Hne]; [apply Z.bits_0|].
      apply Z.bits_above_log2; [lia|].
      assert (Z.log2 a < 32); [|lia]. apply Z.log2_lt_pow2; lia.
Qed.

(** X15: whatever range the resolver returns is the network of an
    address/mask pair that the pattern found in the text: the pair's
    address is one [ipaddress] accepts and lies outside 169.254.0.0/16,
    its mask gives a prefix length between 0 and 32, and the range is
    written as the first address of the block of that size the address
    lies in, a slash, and the prefix length. *)
Theorem resolved_range_sound (run : ipconfig_outcome) (r : string) :
  get_local_network_range_windows run = Some r ->
  exists text ip mask a p,
    run = IpconfigOutput text
    /\ (ip, mask) ∈ Re.finditer text
    /\ Ipaddress.ip_int_from_string ip = Some a
    /\ Ipaddress.make_netmask mask = Some p
    /\ link_local a = false
    /\ 0 <= p <= 32
    /\ r = Ipaddress.cidr (network_base a p) p.
Proof.
  destruct run as [|text]; [done|]. cbn [get_local_network_range_windows].
  intros Hr. exists text.
  induction (Re.finditer text) as [|[ip mask] rest IH]; [done|].
  cbn [first_network] in Hr.
  destruct (truthy ip && truthy mask && negb (startswith "169.254" ip)) eqn:Hc.
  - unfold Ipaddress.interface_network in Hr.
    destruct (Ipaddress.ip_int_from_string ip) as [a|] eqn:Ha; [|done].
    cbn [mbind option_bind] in Hr.
    destruct (Ipaddress.make_netmask mask) as [p|] eqn:Hp; [|done].
    cbn [mbind option_bind] in Hr. injection Hr as <-.
    pose proof (make_netmask_range _ _ Hp) as Hrange.
    exists ip, mask, a, p.
    split; [done|]. split; [apply list_elem_of_here|].
    split; [done|]. split; [done|]. split.
    { rewrite <- (startswith_link_local _ _ Ha).
      apply andb_prop in Hc as [_ Hc]. by apply negb_true_iff. }
    split; [done|]. f_equal. apply land_netmask; [by eapply ip_int_range|done].
  - destruct (IH Hr) as (ip' & mask' & a & p & _ & Hin & H).
    exists ip', mask', a, p.
    split; [done|]. split; [by apply list_elem_of_further|done].
Qed.

Lemma resolved_range_sound_witness :
  exists text ip mask a p,
    IpconfigOutput ipconfig_two_adapters = IpconfigOutput text
    /\ (ip, mask) ∈ Re.finditer text
    /\ Ipaddress.ip_int_from_string ip = Some a
    /\ Ipaddress.make_netmask mask = Some p
    /\ link_local a = false
    /\ 0 <= p <= 32
    /\ "192.168.1.0/24"%string = Ipaddress.cidr (network_base a p) p.
Proof.
  by apply (resolved_range_sound (IpconfigOutput ipconfig_two_adapters)).
Defined.

(** ** The order of the first table *)

Lemma ip_int_from_string_inj s s' a :
  Ipaddress.ip_int_from_string s = Some a ->
  Ipaddress.ip_int_from_string s' = Some a -> s = s'.
Proof.
  intros (o1 & o2 & o3 & o4 & b1 & b2 & b3 & b4 & Hs & H1 & H2 & H3 & H4 & ->)%ip_int_octets
         (p1 & p2 & p3 & p4 & c1 & c2 & c3 & c4 & Hs' & G1 & G2 & G3 & G4 & Heq)%ip_int_octets.
  pose proof (parse_octet_shape _ _ H1) as [_ ?].
  pose proof (parse_octet_shape _ _ H2) as [_ ?].
  pose proof (parse_octet_shape _ _ H3) as [_ ?].
  pose proof (parse_octet_shape _ _ H4) as [_ ?].
  pose proof (parse_octet_shape _ _ G1) as [_ ?].
  pose proof (parse_octet_shape _ _ G2) as [_ ?].
  pose proof (parse_octet_shape _ _ G3) as [_ ?].
  pose proof (parse_octet_shape _ _ G4) as [_ ?].
  assert (b1 = c1 /\ b2 = c2 /\ b3 = c3 /\ b4 = c4) as (-> & -> & -> & ->) by lia.
  rewrite <- (concat_split "." s), <- (concat_split "." s'), Hs, Hs'.
  by rewrite (parse_octet_inj _ _ _ H1 G1), (parse_octet_inj _ _ _ H2 G2),
    (parse_octet_inj _ _ _ H3 G3), (parse_octet_inj _ _ _ H4 G4).
Qed.

(** X16: when the hosts have valid and pairwise different addresses, the
    first table is displayed (its sort does not raise) and its rows do
    not depend on the order in which the replies came in: two lists
    with the same hosts give the same rows, numbers included. *)
Theorem table_order_canonical (clients_list clients_list' : list client) :
  clients_list ≡ₚ clients_list' ->
  Forall valid_address clients_list ->
  NoDup (c_ip <$> clients_list) ->
  exists rows,
    display_wifi_results clients_list = Returned rows
    /\ display_wifi_results clients_list' = Returned rows.
Proof.
  intros Hperm Hvalid Hnodup.
  assert (Forall valid_address clients_list') as Hvalid' by (by rewrite <- Hperm).
  destruct (sort_clients_valid _ Hvalid) as (s1 & Hs1 & Hsorted1 & Hp1).
  destruct (sort_clients_valid _ Hvalid') as (s2 & Hs2 & Hsorted2 & Hp2).
  assert (s1 = s2) as <-.
  { apply (StronglySorted_unique_strong address_le); [|done|done|].
    - intros x y Hx Hy (a & b & Ha & Hb & _ & Hab) (b' & a' & Hb' & Ha' & _ & Hba).
      rewrite Hp1 in Hx. rewrite Hp2, <- Hperm in Hy.
      pose proof (proj1 (Forall_forall _ _) Hvalid x Hx) as [ax Hax].
      pose proof (proj1 (Forall_forall _ _) Hvalid y Hy) as [ay Hay].
      unfold ip_address in Ha, Hb, Ha', Hb'. rewrite Hax in Ha, Ha'.
      rewrite Hay in Hb, Hb'. simplify_eq. simpl in Hab, Hba.
      assert (ax = ay) as -> by lia.
      apply (NoDup_fmap_elem c_ip clients_list); try done.
      unfold Ipaddress.ipv4_address in Hax, Hay.
      destruct (Ipaddress.has_char "/" (c_ip x)); [done|].
      destruct (Ipaddress.has_char "/" (c_ip y)); [done|].
      exact (ip_int_from_string_inj _ _ _ Hax Hay).
    - by rewrite Hp1, Hp2. }
  unfold display_wifi_results. rewrite Hs1, Hs2. by eexists.
Qed.

Lemma table_order_canonical_witness :
  exists rows,
    display_wifi_results two_clients = Returned rows
    /\ display_wifi_results (reverse two_clients) = Returned rows.
Proof.
  apply table_order_canonical.
  - apply Permutation_swap.
  - repeat constructor; by eexists.
  - apply (bool_decide_unpack _). by vm_compute.
Defined.
